(** * Smart-Energy-Tracker: the bill, forecast, tool and upload handlers

    A shallow embedding of the handlers of the dashboard front end and of
    the chat tools, with the properties its specification states of them.

    JavaScript numbers are embedded as exact rationals extended with
    [NaN] and the two infinities: every operation below is the IEEE-754
    operation with the final rounding to binary64 left out, and the sign
    of zero is not tracked.  Where no operation of the code rounds (whole
    numbers of units below 2^50, as in the bills evaluated below) the
    two coincide. *)

From Stdlib Require Import QArith Qround Qminmax Qabs ZArith String Ascii List Bool Lia Lqa.
Import ListNotations.

Set Implicit Arguments.
Set Warnings "-register-all".
Open Scope string_scope.
Open Scope list_scope.

(** ** JavaScript values *)

Module JS.

(** A [Number]. *)
Inductive number : Type :=
| NaN
| NegInf
| Num (q : Q)
| PosInf.

Definition POSITIVE_INFINITY : number := PosInf.

Definition isNaN (x : number) : bool :=
  match x with NaN => true | _ => false end.

Definition neg (x : number) : number :=
  match x with
  | NaN => NaN
  | NegInf => PosInf
  | Num q => Num (- q)
  | PosInf => NegInf
  end.

Definition add (x y : number) : number :=
  match x, y with
  | NaN, _ | _, NaN => NaN
  | PosInf, NegInf | NegInf, PosInf => NaN
  | PosInf, _ | _, PosInf => PosInf
  | NegInf, _ | _, NegInf => NegInf
  | Num a, Num b => Num (a + b)
  end.

Definition sub (x y : number) : number := add x (neg y).

(** The sign of a rational, as a comparison with zero. *)
Definition sgn (q : Q) : comparison := (q ?= 0)%Q.

(** An infinity times a finite factor. *)
Definition scale_inf (positive : bool) (q : Q) : number :=
  match sgn q with
  | Eq => NaN
  | Gt => if positive then PosInf else NegInf
  | Lt => if positive then NegInf else PosInf
  end.

Definition mul (x y : number) : number :=
  match x, y with
  | NaN, _ | _, NaN => NaN
  | Num a, Num b => Num (a * b)
  | PosInf, PosInf | NegInf, NegInf => PosInf
  | PosInf, NegInf | NegInf, PosInf => NegInf
  | PosInf, Num q | Num q, PosInf => scale_inf true q
  | NegInf, Num q | Num q, NegInf => scale_inf false q
  end.

(** Division; a zero divisor counts as [+0]. *)
Definition div (x y : number) : number :=
  match x, y with
  | NaN, _ | _, NaN => NaN
  | Num a, Num b =>
      match sgn b with
      | Eq => match sgn a with Eq => NaN | Gt => PosInf | Lt => NegInf end
      | _ => Num (a / b)
      end
  | Num _, (PosInf | NegInf) => Num 0
  | (PosInf | NegInf), (PosInf | NegInf) => NaN
  | PosInf, Num b => match sgn b with Lt => NegInf | _ => PosInf end
  | NegInf, Num b => match sgn b with Lt => PosInf | _ => NegInf end
  end.

(** [x <= y]; any comparison with [NaN] is false. *)
Definition leb (x y : number) : bool :=
  match x, y with
  | NaN, _ | _, NaN => false
  | NegInf, _ | _, PosInf => true
  | Num a, Num b => Qle_bool a b
  | _, _ => false
  end.

(** [x > y]. *)
Definition gtb (x y : number) : bool :=
  match x, y with
  | NaN, _ | _, NaN => false
  | _, _ => negb (leb x y)
  end.

(** [Math.min] of two arguments. *)
Definition Math_min (x y : number) : number :=
  match x, y with
  | NaN, _ | _, NaN => NaN
  | _, _ => if leb x y then x else y
  end.

(** [x === Number.POSITIVE_INFINITY]. *)
Definition is_pos_inf (x : number) : bool :=
  match x with PosInf => true | _ => false end.

(** The string [Number.prototype.toFixed] returns, kept in parsed form:
    [Dec s n d] is the decimal with sign [s] whose digits are those of
    the natural number [n], the last [d] of them after the point. *)
Inductive decimal : Type :=
| DNaN
| DInf (negative : bool)
| Dec (negative : bool) (n : Z) (fractionDigits : nat).

(** [x.toFixed(fractionDigits)]: the sign is split off, and [n] is the
    integer for which [n / 10^f - x] is closest to zero, the larger one
    of two.  (A double of 10^21 or more is printed by [ToString]; it is
    an integer, so the decimal below denotes the same number.) *)
Definition toFixed (x : number) (fractionDigits : nat) : decimal :=
  match x with
  | NaN => DNaN
  | PosInf => DInf false
  | NegInf => DInf true
  | Num q =>
      let negative := match sgn q with Lt => true | _ => false end in
      let a := Qabs q in
      Dec negative
          (Qfloor (inject_Z (10 ^ Z.of_nat fractionDigits) * a + (1 # 2)))
          fractionDigits
  end.

(** The number a decimal string denotes ([Number(s)], or the implicit
    conversion of [s * k] and [s / k]). *)
Definition value (d : decimal) : number :=
  match d with
  | DNaN => NaN
  | DInf false => PosInf
  | DInf true => NegInf
  | Dec s n f =>
      let m := (inject_Z n / inject_Z (10 ^ Z.of_nat f))%Q in
      Num (if s then - m else m)
  end.


(** *** Printing a decimal *)

Definition digit_char (d : Z) : ascii :=
  ascii_of_nat (48 + Z.to_nat d).

Fixpoint digits_fuel (fuel : nat) (n : Z) (acc : list ascii) : list ascii :=
  match fuel with
  | O => acc
  | S k =>
      let acc' := digit_char (n mod 10) :: acc in
      if (n <? 10)%Z then acc' else digits_fuel k (n / 10) acc'
  end.

(** The decimal digits of a natural number, most significant first. *)
Definition digits (n : Z) : list ascii :=
  digits_fuel (S (Z.to_nat (Z.log2_up (n + 1)))) n [].

Fixpoint pad_zeros (k : nat) (l : list ascii) : list ascii :=
  match k with
  | O => l
  | S k' => "0"%char :: pad_zeros k' l
  end.

Definition show (d : decimal) : string :=
  match d with
  | DNaN => "NaN"
  | DInf false => "Infinity"
  | DInf true => "-Infinity"
  | Dec s n f =>
      let ds := digits n in
      let ds := pad_zeros (S f - length ds) ds in
      let k := (length ds - f)%nat in
      let body :=
        match f with
        | O => ds
        | _ => firstn k ds ++ "."%char :: skipn k ds
        end in
      string_of_list_ascii (if s then "-"%char :: body else body)
  end.

(** *** Parsing numbers *)

(** The white space [parseInt] and [parseFloat] skip (the ASCII part). *)
Definition is_space (c : ascii) : bool :=
  let n := nat_of_ascii c in
  ((9 <=? n) && (n <=? 13) || (n =? 32))%nat.

Fixpoint trimStart (l : list ascii) : list ascii :=
  match l with
  | c :: r => if is_space c then trimStart r else l
  | [] => []
  end.

(** An optional sign: whether it is a minus, and the rest. *)
Definition take_sign (l : list ascii) : bool * list ascii :=
  match l with
  | "-"%char :: r => (true, r)
  | "+"%char :: r => (false, r)
  | _ => (false, l)
  end.

(** The value of a digit in a radix up to 16. *)
Definition digit_value (radix : Z) (c : ascii) : option Z :=
  let n := Z.of_nat (nat_of_ascii c) in
  let v :=
    if (48 <=? n)%Z && (n <=? 57)%Z then Some (n - 48)%Z
    else if (97 <=? n)%Z && (n <=? 102)%Z then Some (n - 87)%Z
    else if (65 <=? n)%Z && (n <=? 70)%Z then Some (n - 55)%Z
    else None in
  match v with
  | Some d => if (d <? radix)%Z then Some d else None
  | None => None
  end.

(** The longest prefix of digits: how many there are, their value, and
    what follows. *)
Fixpoint take_digits (radix : Z) (l : list ascii) (count : nat) (acc : Z)
  : nat * Z * list ascii :=
  match l with
  | c :: r =>
      match digit_value radix c with
      | Some d => take_digits radix r (S count) (acc * radix + d)%Z
      | None => (count, acc, l)
      end
  | [] => (count, acc, [])
  end.

(** [Number.parseInt(s)] without a radix argument. *)
Definition parseInt (s : string) : number :=
  let '(negative, l) := take_sign (trimStart (list_ascii_of_string s)) in
  let '(radix, l) :=
    match l with
    | "0"%char :: ("x"%char | "X"%char) :: r => (16%Z, r)
    | _ => (10%Z, l)
    end in
  let '(count, v, _) := take_digits radix l 0 0%Z in
  match count with
  | O => NaN
  | _ => Num (inject_Z (if negative then - v else v))
  end.

Fixpoint starts_with (p l : list ascii) : bool :=
  match p, l with
  | [], _ => true
  | a :: p', b :: l' => Ascii.eqb a b && starts_with p' l'
  | _ :: _, [] => false
  end.

(** [Number.parseFloat(s)]: the longest prefix that is a decimal literal. *)
Definition parseFloat (s : string) : number :=
  let '(negative, l) := take_sign (trimStart (list_ascii_of_string s)) in
  if starts_with (list_ascii_of_string "Infinity") l
  then (if negative then NegInf else PosInf)
  else
    let '(ni, vi, l1) := take_digits 10 l 0 0%Z in
    let '(nf, vf, l2) :=
      match l1 with
      | "."%char :: r => take_digits 10 r 0 vi
      | _ => (O, vi, l1)
      end in
    match (ni + nf)%nat with
    | O => NaN
    | _ =>
        let e :=
          match l2 with
          | ("e"%char | "E"%char) :: r =>
              let '(eneg, r') := take_sign r in
              let '(ne, ve, _) := take_digits 10 r' 0 0%Z in
              match ne with
              | O => 0%Z
              | _ => if eneg then (- ve)%Z else ve
              end
          | _ => 0%Z
          end in
        let m := (inject_Z vf * 10 ^ (e - Z.of_nat nf))%Q in
        Num (Qred (if negative then - m else m))
    end.

(** *** Values other than numbers *)

(** What a field of a forecast object holds: nothing, a number, or the
    string of a [toFixed]. *)
Inductive prim : Type :=
| Undefined
| PNum (x : number)
| PStr (d : decimal).

(** The conversion the operators [*] and [/] apply to an operand. *)
Definition ToNumber (v : prim) : number :=
  match v with
  | Undefined => NaN
  | PNum x => x
  | PStr d => value d
  end.


(** A parsed JSON text. *)
Inductive json : Type :=
| JNull
| JBool (b : bool)
| JNumber (q : Q)
| JString (s : string)
| JArray (items : list json)
| JObject (fields : list (string * json)).

Definition isArray (j : json) : bool :=
  match j with JArray _ => true | _ => false end.

Definition json_truthy (j : json) : bool :=
  match j with
  | JNull => false
  | JBool b => b
  | JNumber q => negb (Qeq_bool q 0)
  | JString s => negb (String.eqb s "")
  | JArray _ | JObject _ => true
  end.

(** The member of a name; of members with one name the last counts, as
    in [JSON.parse]. *)
Fixpoint lookup (key : string) (fields : list (string * json)) : option json :=
  match fields with
  | [] => None
  | (k, v) :: rest =>
      match lookup key rest with
      | Some later => Some later
      | None => if String.eqb k key then Some v else None
      end
  end.

(** [j?.key]: the member of an object, nothing for any other value. *)
Definition member (key : string) (j : json) : option json :=
  match j with
  | JObject fields => lookup key fields
  | _ => None
  end.

(** The outcome of an expression that may throw, or of an awaited
    promise that may reject, with the message of the error. *)
Inductive result (A : Type) : Type :=
| Ok (a : A)
| Throw (message : string).
Arguments Ok {A} a.
Arguments Throw {A} message.

(** [String(n)] of an integer. *)
Definition ToString_Z (n : Z) : string :=
  string_of_list_ascii
    (if (n <? 0)%Z then "-"%char :: digits (- n) else digits n).

Definition hex_char (d : nat) : ascii :=
  if (d <? 10)%nat then ascii_of_nat (48 + d) else ascii_of_nat (55 + d).

(** The characters [encodeURIComponent] leaves as they are. *)
Definition unreserved (c : ascii) : bool :=
  let n := nat_of_ascii c in
  ((48 <=? n) && (n <=? 57) || (65 <=? n) && (n <=? 90)
   || (97 <=? n) && (n <=? 122))%nat
  || existsb (Ascii.eqb c) (list_ascii_of_string "-_.!~*'()").

(** [encodeURIComponent] on the UTF-8 bytes of a string. *)
Fixpoint encodeURIComponent (s : string) : string :=
  match s with
  | EmptyString => EmptyString
  | String c r =>
      if unreserved c then String c (encodeURIComponent r)
      else
        let n := nat_of_ascii c in
        String "%" (String (hex_char (n / 16))
                     (String (hex_char (n mod 16)) (encodeURIComponent r)))
  end.

(** [s.endsWith(suffix)]. *)
Definition endsWith (s suffix : string) : bool :=
  let n := String.length s in
  let m := String.length suffix in
  (m <=? n)%nat && String.eqb (substring (n - m) m s) suffix.

End JS.

Declare Scope js_scope.
Delimit Scope js_scope with js.
Bind Scope js_scope with JS.number.
Infix "+" := JS.add : js_scope.
Infix "-" := JS.sub : js_scope.
Infix "*" := JS.mul : js_scope.
Infix "/" := JS.div : js_scope.
Infix "<=?" := JS.leb : js_scope.
Infix ">?" := JS.gtb : js_scope.

Local Open Scope js_scope.

(** ** components/quantum-calculator.tsx *)

Module QuantumCalculator.
Import JS.

Module Slab.
Record t : Type := { from : number; to : number; rate : number }.
End Slab.

(** The upper end a breakup row shows: a number, or the text [Above]. *)
Inductive RowTo : Type :=
| To (n : number)
| Above.

Module Row.
Record t : Type :=
  { from : number; to : RowTo; units : number; rate : number;
    amount : decimal }.
End Row.

Module Result.
Record t : Type :=
  { units : number; total_amount : decimal; breakup : list Row.t }.
End Result.

Record State : Type :=
  { units : string; result : option Result.t; isCalculating : bool }.

Definition slabs : list Slab.t :=
  [ {| Slab.from := Num 0; Slab.to := Num 100; Slab.rate := Num 0 |};
    {| Slab.from := Num 101; Slab.to := Num 200; Slab.rate := Num 2.25 |};
    {| Slab.from := Num 201; Slab.to := Num 500; Slab.rate := Num 4.5 |};
    {| Slab.from := Num 501; Slab.to := Num 1000; Slab.rate := Num 6.0 |};
    {| Slab.from := Num 1001; Slab.to := POSITIVE_INFINITY;
       Slab.rate := Num 8.0 |} ].

(** One pass of the loop body for [slab]. *)
Definition slabUnits_of (remainingUnits : number) (slab : Slab.t) : number :=
  Math_min remainingUnits (Slab.to slab - Slab.from slab + Num 1).

Definition row_of (slab : Slab.t) (slabUnits amount : number) : Row.t :=
  {| Row.from := Slab.from slab;
     Row.to := if is_pos_inf (Slab.to slab) then Above else To (Slab.to slab);
     Row.units := slabUnits;
     Row.rate := Slab.rate slab;
     Row.amount := toFixed amount 2 |}.

(** The [for (const slab of slabs)] loop, on the three variables it
    updates; it stops at the first slab reached with nothing remaining. *)
Fixpoint for_slabs (table : list Slab.t)
    (totalAmount remainingUnits : number) (breakdown : list Row.t)
  : number * number * list Row.t :=
  match table with
  | [] => (totalAmount, remainingUnits, breakdown)
  | slab :: rest =>
      if remainingUnits <=? Num 0
      then (totalAmount, remainingUnits, breakdown)
      else
        let slabUnits := slabUnits_of remainingUnits slab in
        let amount := slabUnits * Slab.rate slab in
        for_slabs rest (totalAmount + amount) (remainingUnits - slabUnits)
                  (breakdown ++ [row_of slab slabUnits amount])
  end.

(** The computation after the guard: the slab walk and the result it
    stores. *)
Definition computeBill (table : list Slab.t) (unitsValue : number)
  : Result.t :=
  let '(totalAmount, _, breakdown) :=
    for_slabs table (Num 0) unitsValue [] in
  {| Result.units := unitsValue;
     Result.total_amount := toFixed totalAmount 2;
     Result.breakup := breakdown |}.

(** The click handler; the simulated delay changes no state. *)
Definition calculateBill (st : State) : State :=
  let unitsValue := parseFloat (units st) in
  if isNaN unitsValue || (unitsValue <=? Num 0) then st
  else
    {| units := units st;
       result := Some (computeBill slabs unitsValue);
       isCalculating := false |}.

(** *** What the walk is stated against *)

(** What one slab can take: [slab.to - slab.from + 1]. *)
Definition capacity (slab : Slab.t) : number :=
  (Slab.to slab - Slab.from slab + Num 1)%js.

(** A usable slab: a rate that is not negative, and room for something. *)
Definition wf_slab (slab : Slab.t) : Prop :=
  (exists rate, Slab.rate slab = Num rate /\ (0 <= rate)%Q) /\
  (capacity slab = PosInf \/ exists c, capacity slab = Num c /\ (0 < c)%Q).

Definition unbounded (slab : Slab.t) : Prop := capacity slab = PosInf.

(** [sum(breakup[i].units)]. *)
Definition sum_units (rows : list Row.t) : number :=
  fold_right (fun row acc => (Row.units row + acc)%js) (Num 0) rows.

(** What every emitted row satisfies. *)
Definition row_ok (row : Row.t) : Prop :=
  (exists k, Row.units row = Num k /\ (0 < k)%Q) /\
  (exists rate, Row.rate row = Num rate /\ (0 <= rate)%Q) /\
  Row.amount row = toFixed (Row.units row * Row.rate row)%js 2.

End QuantumCalculator.


(** ** components/bill-calculator.tsx *)

Module BillCalculator.
Import JS.

(** The upper end of a row: a number, or a text such as [Above]. *)
Inductive UpTo : Type :=
| Upto (n : number)
| Label (s : string).

Module BillBreakup.
Record t : Type :=
  { from : number; to : UpTo; units : number; rate : number;
    amount : number }.
End BillBreakup.

Module BillData.
Record t : Type :=
  { units : number; total_amount : number; breakup : list BillBreakup.t }.
End BillData.

Record State : Type :=
  { units : string; billData : option BillData.t; isLoading : bool;
    error : string }.

(** The body of an answer of [/api/bill]: an object with a true [error]
    member, or a bill. *)
Inductive Payload : Type :=
| ErrorPayload (error : string)
| BillPayload (data : BillData.t).

Record Response : Type :=
  { ok : bool; status : string; statusText : string;
    json : result Payload }.

(** What [fetch] settles to. *)
Inductive Fetched : Type :=
| Rejected (message : string)
| Resolved (response : Response).

(** The service behind [GET /api/bill?units=...], by the number sent. *)
Definition Backend : Type := number -> Fetched.

Definition setError (st : State) (message : string) : State :=
  {| units := units st; billData := billData st; isLoading := isLoading st;
     error := message |}.

Definition setBillData (st : State) (data : option BillData.t) : State :=
  {| units := units st; billData := data; isLoading := isLoading st;
     error := error st |}.

Definition setIsLoading (st : State) (b : bool) : State :=
  {| units := units st; billData := billData st; isLoading := b;
     error := error st |}.

(** The [try] block with its [catch]. *)
Definition request (backend : Backend) (unitsValue : number) (st : State)
  : State :=
  let failed message :=
    setError st ("Error calculating bill: " ++ message)%string in
  match backend unitsValue with
  | Rejected message => failed message
  | Resolved response =>
      if negb (ok response)
      then failed ("HTTP " ++ status response ++ ": "
                   ++ statusText response)%string
      else
        match json response with
        | Throw message => failed message
        | Ok (ErrorPayload e) => setError st e
        | Ok (BillPayload data) => setBillData st (Some data)
        end
  end.

(** The handler: the state it leaves, and the units values it sent to
    the service. *)
Definition calculateBill (backend : Backend) (st : State)
  : State * list number :=
  let unitsValue := parseFloat (units st) in
  if isNaN unitsValue || (unitsValue <=? Num 0) then
    (setError st "Please enter a valid number of units (greater than 0)", [])
  else if unitsValue >? Num 10000 then
    (setError st "Units seem too high. Please check your input.", [])
  else
    let st := setBillData (setError (setIsLoading st true) "") None in
    (setIsLoading (request backend unitsValue st) false, [unitsValue]).

End BillCalculator.

(** ** components/professional-dashboard.tsx *)

Module ProfessionalDashboard.
Import JS.

Module Bill.
Record t : Type := { total_amount : prim }.
End Bill.

Module Forecast.
Record t : Type :=
  { predicted_kwh : prim;
    bill : option Bill.t;
    daily_avg_kwh : prim;
    daily_avg_cost : prim;
    prediction_period_days : prim;
    confidence : option string }.
End Forecast.

(** [f.bill?.total_amount]. *)
Definition bill_total_amount (f : Forecast.t) : prim :=
  match Forecast.bill f with
  | Some b => Bill.total_amount b
  | None => Undefined
  end.

Record State : Type :=
  { selectedPredictionPeriod : string;
    forecastData : option Forecast.t;
    isLoadingForecast : bool }.

(** What [fetch] of [/api/predict?days=...] settles to; [json] is
    nothing when reading the body rejects.  Of an answer that is not
    [ok] the handler only logs the body. *)
Inductive Fetched : Type :=
| Rejected
| Resolved (ok : bool) (json : option Forecast.t).

Definition Backend : Type := string -> Fetched.

(** The object both fallback branches build. *)
Definition fallbackData (baseData : Forecast.t) (period : string)
  : Forecast.t :=
  let multiplier := parseInt period / Num 30 in
  {| Forecast.predicted_kwh :=
       PStr (toFixed (ToNumber (Forecast.predicted_kwh baseData) * multiplier) 2);
     Forecast.bill :=
       Some {| Bill.total_amount :=
                 PStr (toFixed (ToNumber (bill_total_amount baseData)
                                * multiplier) 2) |};
     Forecast.daily_avg_kwh :=
       PStr (toFixed ((ToNumber (Forecast.predicted_kwh baseData) * multiplier)
                      / parseInt period) 2);
     Forecast.daily_avg_cost :=
       PStr (toFixed ((ToNumber (bill_total_amount baseData) * multiplier)
                      / parseInt period) 2);
     Forecast.prediction_period_days := PNum (parseInt period);
     Forecast.confidence := Some "estimated"%string |}.

Definition setForecastData (st : State) (f : option Forecast.t) : State :=
  {| selectedPredictionPeriod := selectedPredictionPeriod st;
     forecastData := f;
     isLoadingForecast := isLoadingForecast st |}.

(** [if (baseData) { ... setForecastData(fallbackData) }]. *)
Definition useFallback (baseData : option Forecast.t) (period : string)
    (st : State) : State :=
  match baseData with
  | Some b => setForecastData st (Some (fallbackData b period))
  | None => st
  end.

(** The handler; [baseData] is [dashboardData?.prediction]. *)
Definition handlePredictionPeriodChange (baseData : option Forecast.t)
    (backend : Backend) (period : string) (st : State) : State :=
  let st :=
    {| selectedPredictionPeriod := period;
       forecastData := None;
       isLoadingForecast := true |} in
  let st :=
    match backend period with
    | Resolved true (Some data) => setForecastData st (Some data)
    | Resolved false (Some _) => useFallback baseData period st
    | Resolved _ None => useFallback baseData period st
    | Rejected => useFallback baseData period st
    end in
  {| selectedPredictionPeriod := selectedPredictionPeriod st;
     forecastData := forecastData st;
     isLoadingForecast := false |}.

(** [forecastData || dashboardData?.prediction]. *)
Definition currentForecast (baseData : option Forecast.t) (st : State)
  : option Forecast.t :=
  match forecastData st with
  | Some f => Some f
  | None => baseData
  end.




End ProfessionalDashboard.

(** ** The chat tools *)

Module AgentTools.
Import JS.

Definition API_BASE (NEXT_PUBLIC_BACKEND_URL : option string) : string :=
  match NEXT_PUBLIC_BACKEND_URL with
  | Some url => if String.eqb url "" then "http://localhost:5000/api" else url
  | None => "http://localhost:5000/api"
  end.

Record Response : Type :=
  { ok : bool; status : string; json : result json }.

(** What the network does with a request: it never settles, it fails
    after some milliseconds, or after some milliseconds the response has
    arrived (and, when it is [ok], its body has been read). *)
Inductive Served : Type :=
| Never
| Fails (after : N) (message : string)
| Answers (after : N) (res : Response).

Definition Network : Type := string -> Served.


(** The message of the error an aborted [fetch] rejects with. *)
Definition abortMessage : string := "This operation was aborted".

(** [fetchJSON(url, init, timeoutMs = 10000)]; no caller passes [init].
    The timer aborts the request unless it has settled before
    [timeoutMs]. *)
Definition fetchJSON (net : Network) (url : string) (timeoutMs : option N)
  : result JS.json :=
  let timeoutMs := match timeoutMs with Some t => t | None => 10000%N end in
  match net url with
  | Never => Throw abortMessage
  | Fails after message =>
      if (after <? timeoutMs)%N then Throw message else Throw abortMessage
  | Answers after res =>
      if (after <? timeoutMs)%N then
        if negb (ok res)
        then Throw ("HTTP " ++ status res ++ " on " ++ url)%string
        else json res
      else Throw abortMessage
  end.

(** The object [{ error: message }]. *)
Definition errorObject (message : string) : JS.json :=
  JObject [("error", JString message)].

(** *** The [zod] schemas

    A schema takes the value found (nothing when the member is absent)
    and gives the parsed value or the issue. *)
Definition schema (A : Type) : Type := option JS.json -> result A.

Definition z_number : schema Q :=
  fun v =>
    match v with
    | Some (JNumber q) => Ok q
    | _ => Throw "Expected number"
    end.

(** [Number.isInteger]. *)
Definition isInteger (q : Q) : bool := Qeq_bool (inject_Z (Qfloor q)) q.

Definition z_int (s : schema Q) : schema Z :=
  fun v =>
    match s v with
    | Ok q => if isInteger q then Ok (Qfloor q) else Throw "Expected integer"
    | Throw issue => Throw issue
    end.

Definition z_min (bound : Z) (s : schema Z) : schema Z :=
  fun v =>
    match s v with
    | Ok n => if (bound <=? n)%Z then Ok n else Throw "Number too small"
    | Throw issue => Throw issue
    end.

Definition z_max (bound : Z) (s : schema Z) : schema Z :=
  fun v =>
    match s v with
    | Ok n => if (n <=? bound)%Z then Ok n else Throw "Number too big"
    | Throw issue => Throw issue
    end.

Definition z_string : schema string :=
  fun v =>
    match v with
    | Some (JString s) => Ok s
    | _ => Throw "Expected string"
    end.

Definition z_min_length (bound : nat) (s : schema string) : schema string :=
  fun v =>
    match s v with
    | Ok x => if (bound <=? String.length x)%nat then Ok x
              else Throw "String too short"
    | Throw issue => Throw issue
    end.

Definition z_optional {A : Type} (s : schema A) : schema (option A) :=
  fun v =>
    match v with
    | None => Ok None
    | Some _ =>
        match s v with
        | Ok a => Ok (Some a)
        | Throw issue => Throw issue
        end
    end.

(** [z.object({ key: s })]: members other than [key] are dropped. *)
Definition z_object {A : Type} (key : string) (s : schema A) : schema A :=
  fun v =>
    match v with
    | Some (JObject fields) => s (lookup key fields)
    | _ => Throw "Expected object"
    end.

(** What calling a tool gives: the input is parsed with the schema of
    the tool, and only a parsed input reaches [execute]. *)
Inductive ToolResult : Type :=
| InvalidToolInput (issue : string)
| Executed (output : JS.json).

Definition callTool {A : Type} (inputSchema : schema A)
    (execute : A -> JS.json) (input : JS.json) : ToolResult :=
  match inputSchema (Some input) with
  | Ok args => Executed (execute args)
  | Throw issue => InvalidToolInput issue
  end.

Section Tools.
Variable net : Network.
Variable base : string.

(** [getPredictedBillAndTariff] *)
Definition getPredictedBillAndTariff_inputSchema : schema (option Z) :=
  z_object "days" (z_optional (z_max 365 (z_min 1 (z_int z_number)))).

Definition predictUrl (days : Z) : string :=
  (base ++ "/predict?days=" ++ encodeURIComponent (ToString_Z days))%string.

Definition getPredictedBillAndTariff_execute (days : option Z) : JS.json :=
  let days := match days with Some d => d | None => 30%Z end in
  match fetchJSON net (predictUrl days) None with
  | Ok data => data
  | Throw message =>
      errorObject
        ("Failed to fetch predicted bill and tariff data: " ++ message)%string
  end.

Definition getPredictedBillAndTariff : JS.json -> ToolResult :=
  callTool getPredictedBillAndTariff_inputSchema
           getPredictedBillAndTariff_execute.

(** [getWeatherData] *)
Definition getWeatherData_inputSchema : schema string :=
  z_object "city" (z_min_length 1 z_string).

Definition weatherUrl (city : string) : string :=
  (base ++ "/weather?city=" ++ encodeURIComponent city)%string.

Definition getWeatherData_execute (city : string) : JS.json :=
  match fetchJSON net (weatherUrl city) None with
  | Ok data => data
  | Throw message =>
      errorObject
        ("Failed to fetch weather data for " ++ city ++ ": " ++ message)%string
  end.

Definition getWeatherData : JS.json -> ToolResult :=
  callTool getWeatherData_inputSchema getWeatherData_execute.

End Tools.

End AgentTools.

(** ** The page (SmartEnergyDashboard): the state the upload feeds *)

Module SmartEnergyDashboard.
Import JS.

Record ConnectionState : Type :=
  { isConnected : bool; status : string }.

Module DashboardData.
Record t : Type :=
  { peak : option json; prediction : option json; suggestions : json }.
End DashboardData.

Record State : Type :=
  { connection : ConnectionState;
    energyData : json;
    dashboardData : option DashboardData.t;
    deviceData : json;
    isLoading : bool }.

(** What a [fetch] of one of the read endpoints settles to; [json] is
    the body as [response.json()] gives it. *)
Inductive Fetched : Type :=
| Rejected
| Resolved (ok : bool) (json : result JS.json).

Definition Backend : Type := string -> Fetched.

Definition setIsLoading (st : State) (b : bool) : State :=
  {| connection := connection st; energyData := energyData st;
     dashboardData := dashboardData st; deviceData := deviceData st;
     isLoading := b |}.

Definition setEnergyData (st : State) (data : json) : State :=
  {| connection := connection st; energyData := data;
     dashboardData := dashboardData st; deviceData := deviceData st;
     isLoading := isLoading st |}.

Definition setDashboardData (st : State) (d : DashboardData.t) : State :=
  {| connection := connection st; energyData := energyData st;
     dashboardData := Some d; deviceData := deviceData st;
     isLoading := isLoading st |}.

Definition setDeviceData (st : State) (d : json) : State :=
  {| connection := connection st; energyData := energyData st;
     dashboardData := dashboardData st; deviceData := d;
     isLoading := isLoading st |}.

(** [response.ok ? response.json() : null], which may reject. *)
Definition bodyOrNull (ok : bool) (body : result json)
  : result (option json) :=
  if ok then
    match body with
    | Ok j => Ok (Some j)
    | Throw message => Throw message
    end
  else Ok None.

(** [results[2]?.suggestions || []]. *)
Definition suggestionsOf (r : option json) : json :=
  match r with
  | Some j =>
      match member "suggestions" j with
      | Some s => if json_truthy s then s else JArray []
      | None => JArray []
      end
  | None => JArray []
  end.

(** The [try] block of [loadDashboardData]: nothing is stored when a
    promise rejects. *)
Definition loadAll (backend : Backend) (st : State) : State :=
  match backend "/peak", backend "/predict",
        backend "/suggestions", backend "/devices" with
  | Resolved ok0 b0, Resolved ok1 b1, Resolved ok2 b2, Resolved ok3 b3 =>
      match bodyOrNull ok0 b0, bodyOrNull ok1 b1,
            bodyOrNull ok2 b2, bodyOrNull ok3 b3 with
      | Ok r0, Ok r1, Ok r2, Ok r3 =>
          let st :=
            setDashboardData st
              {| DashboardData.peak := r0;
                 DashboardData.prediction := r1;
                 DashboardData.suggestions := suggestionsOf r2 |} in
          match r3 with
          | Some devices =>
              if json_truthy devices then setDeviceData st devices else st
          | None => st
          end
      | _, _, _, _ => st
      end
  | _, _, _, _ => st
  end.

Definition loadDashboardData (backend : Backend) (st : State) : State :=
  if negb (isConnected (connection st)) then st
  else setIsLoading (loadAll backend (setIsLoading st true)) false.

Definition handleDataUpload (backend : Backend) (data : json) (st : State)
  : State :=
  loadDashboardData backend (setEnergyData st data).

End SmartEnergyDashboard.

(** ** The upload component (DataUpload) *)

Module DataUpload.
Import JS.

Record File : Type := { name : string; text : string }.

Inductive StatusType : Type := loading | error | success.

Record UploadStatus : Type :=
  { type : option StatusType; message : string; progress : option N }.

(** The members the handler reads of the body of the answer. *)
Module UploadResult.
Record t : Type :=
  { status : option string; rows_loaded : option Z;
    error : option string }.
End UploadResult.

Inductive Fetched : Type :=
| Rejected (message : string)
| Resolved (ok : bool) (json : result UploadResult.t).

(** [a || b] on an optional count. *)
Definition count_or (a : option Z) (b : Z) : Z :=
  match a with
  | Some n => if (n =? 0)%Z then b else n
  | None => b
  end.

(** [a || b] on an optional string. *)
Definition string_or (a : option string) (b : string) : string :=
  match a with
  | Some s => if String.eqb s "" then b else s
  | None => b
  end.

Definition length_of (data : json) : Z :=
  match data with
  | JArray items => Z.of_nat (length items)
  | _ => 0%Z
  end.

Definition failed (msg : string) : UploadStatus :=
  {| type := Some error; message := msg; progress := None |}.

Section Handler.
(** The state of the parent, and the props of the component. *)
Variable App : Type.
Variable connection_isConnected : bool.
Variable onDataUpload : json -> App -> App.
Variable onDataLoaded : App -> App.
(** [JSON.parse], and the service behind [POST /api/upload]. *)
Variable JSON_parse : string -> result json.
Variable upload : json -> Fetched.

(** [handleFile]: the upload status it leaves and what it does to the
    state of the parent.  The intermediate [loading] statuses are
    overwritten before it returns. *)
Definition handleFile (file : File) (st : UploadStatus * App)
  : UploadStatus * App :=
  let app := snd st in
  if negb (endsWith (name file) ".json") then
    (failed "Invalid file format. Please select a JSON file.", app)
  else if negb connection_isConnected then
    (failed "Backend connection required. Please check your connection.",
     app)
  else
    let caught msg := (failed ("Error: " ++ msg)%string, app) in
    match JSON_parse (text file) with
    | Throw msg => caught msg
    | Ok data =>
        if negb (isArray data)
        then caught "Data must be an array of energy readings"
        else
          match upload data with
          | Rejected msg => caught msg
          | Resolved _ (Throw msg) => caught msg
          | Resolved ok (Ok result) =>
              if ok && match UploadResult.status result with
                       | Some s => String.eqb s "success"
                       | None => false
                       end
              then
                ({| type := Some success;
                    message :=
                      ("Successfully uploaded "
                       ++ ToString_Z
                            (count_or (UploadResult.rows_loaded result)
                                      (length_of data))
                       ++ " energy readings")%string;
                    progress := Some 100%N |},
                 onDataLoaded (onDataUpload data app))
              else
                (failed (string_or (UploadResult.error result)
                                   "Upload failed"), app)
          end
    end.

End Handler.

(** An upload that goes through: the text parses to an array and the
    service answers [ok] with the status [success]. *)
Definition accepted (JSON_parse : string -> result json)
    (upload : json -> Fetched) (file : File) : bool :=
  match JSON_parse (text file) with
  | Ok data =>
      isArray data &&
      match upload data with
      | Resolved true (Ok result) =>
          match UploadResult.status result with
          | Some s => String.eqb s "success"
          | None => false
          end
      | _ => false
      end
  | Throw _ => false
  end.

(** The component as the page mounts it. *)
Definition mounted (backend : SmartEnergyDashboard.Backend)
    (JSON_parse : string -> result json) (upload : json -> Fetched)
    (file : File) (st : UploadStatus * SmartEnergyDashboard.State)
  : UploadStatus * SmartEnergyDashboard.State :=
  handleFile
    (SmartEnergyDashboard.isConnected
       (SmartEnergyDashboard.connection (snd st)))
    (SmartEnergyDashboard.handleDataUpload backend)
    (SmartEnergyDashboard.loadDashboardData backend)
    JSON_parse upload file st.

End DataUpload.

(** ** Inputs the statements below are evaluated on *)

Module Samples.
Import JS.

(** A bill with no rows and the total zero, as the service would send
    it for no units. *)
Definition emptyBill : BillCalculator.BillData.t :=
  {| BillCalculator.BillData.units := Num 0;
     BillCalculator.BillData.total_amount := Num 0;
     BillCalculator.BillData.breakup := [] |}.

(** A service that answers every request with the empty bill. *)
Definition obliging : BillCalculator.Backend :=
  fun _ =>
    BillCalculator.Resolved
      {| BillCalculator.ok := true;
         BillCalculator.status := "200";
         BillCalculator.statusText := "OK";
         BillCalculator.json := Ok (BillCalculator.BillPayload emptyBill) |}.

Definition blankQuantum (input : string) : QuantumCalculator.State :=
  {| QuantumCalculator.units := input;
     QuantumCalculator.result := None;
     QuantumCalculator.isCalculating := false |}.

Definition blankBill (input : string) : BillCalculator.State :=
  {| BillCalculator.units := input;
     BillCalculator.billData := None;
     BillCalculator.isLoading := false;
     BillCalculator.error := "" |}.

(** The table of the calculator with its first slab counted from the
    first unit, which makes that slab a hundred units wide. *)
Definition slabsFromFirstUnit : list QuantumCalculator.Slab.t :=
  {| QuantumCalculator.Slab.from := Num 1;
     QuantumCalculator.Slab.to := Num 100;
     QuantumCalculator.Slab.rate := Num 0 |}
  :: tl QuantumCalculator.slabs.

(** A base prediction with its energy and its bill, and nothing else. *)
Definition baseForecast (kwh amount : Q) : ProfessionalDashboard.Forecast.t :=
  {| ProfessionalDashboard.Forecast.predicted_kwh := PNum (Num kwh);
     ProfessionalDashboard.Forecast.bill :=
       Some {| ProfessionalDashboard.Bill.total_amount := PNum (Num amount) |};
     ProfessionalDashboard.Forecast.daily_avg_kwh := Undefined;
     ProfessionalDashboard.Forecast.daily_avg_cost := Undefined;
     ProfessionalDashboard.Forecast.prediction_period_days := Undefined;
     ProfessionalDashboard.Forecast.confidence := None |}.

(** The forecast service out of reach. *)
Definition offline : ProfessionalDashboard.Backend :=
  fun _ => ProfessionalDashboard.Rejected.

Definition idle : ProfessionalDashboard.State :=
  {| ProfessionalDashboard.selectedPredictionPeriod := "30";
     ProfessionalDashboard.forecastData := None;
     ProfessionalDashboard.isLoadingForecast := false |}.

(** A network on which nothing ever settles. *)
Definition silent : AgentTools.Network := fun _ => AgentTools.Never.

(** A network that answers every request with [body] after [ms]
    milliseconds. *)
Definition answering (ms : N) (body : json) : AgentTools.Network :=
  fun _ =>
    AgentTools.Answers ms
      {| AgentTools.ok := true; AgentTools.status := "200";
         AgentTools.json := Ok body |}.

Definition sunny : json :=
  JObject [("temperature", JNumber 31); ("condition", JString "Sunny")].

(** [JSON.parse] on the two texts used below. *)
Definition parseSample (s : string) : result json :=
  if String.eqb s "[]" then Ok (JArray [])
  else if String.eqb s "{}" then Ok (JObject [])
  else Throw "Unexpected token".

(** An upload service that takes everything. *)
Definition taking : json -> DataUpload.Fetched :=
  fun _ =>
    DataUpload.Resolved true
      (Ok {| DataUpload.UploadResult.status := Some "success";
             DataUpload.UploadResult.rows_loaded := Some 2%Z;
             DataUpload.UploadResult.error := None |}).

(** Read endpoints that all answer with an empty object. *)
Definition serving : SmartEnergyDashboard.Backend :=
  fun _ => SmartEnergyDashboard.Resolved true (Ok (JObject [])).

(** A page with readings and a snapshot already loaded. *)
Definition loaded : SmartEnergyDashboard.State :=
  {| SmartEnergyDashboard.connection :=
       {| SmartEnergyDashboard.isConnected := true;
          SmartEnergyDashboard.status := "Connected" |};
     SmartEnergyDashboard.energyData := JArray [JObject [("power", JNumber 750)]];
     SmartEnergyDashboard.dashboardData :=
       Some {| SmartEnergyDashboard.DashboardData.peak := Some (JString "evening");
               SmartEnergyDashboard.DashboardData.prediction := None;
               SmartEnergyDashboard.DashboardData.suggestions := JArray [] |};
     SmartEnergyDashboard.deviceData := JObject [];
     SmartEnergyDashboard.isLoading := false |}.

Definition noStatus : DataUpload.UploadStatus :=
  {| DataUpload.type := None; DataUpload.message := "";
     DataUpload.progress := None |}.

End Samples.


From Stdlib Require Import Permutation.

(** ** The slab walk, row by row *)

Module QuantumRows.
Import JS QuantumCalculator.

(** What a row shows of the slab it was made for. *)
Definition shown_of_slab (slab : Slab.t) : number * RowTo * number :=
  (Slab.from slab,
   if is_pos_inf (Slab.to slab) then Above else To (Slab.to slab),
   Slab.rate slab).

Definition shown_of_row (row : Row.t) : number * RowTo * number :=
  (Row.from row, Row.to row, Row.rate row).

(** [sum(breakup[i].units * breakup[i].rate)], not rounded. *)
Definition sum_amounts (rows : list Row.t) : number :=
  fold_right (fun row acc => (Row.units row * Row.rate row + acc)%js)
             (Num 0) rows.





End QuantumRows.

(** ** The other chat tools *)

Module MoreTools.
Import JS AgentTools.

(** [z.object({})]. *)
Definition z_empty_object : schema unit :=
  fun v =>
    match v with
    | Some (JObject _) => Ok tt
    | _ => Throw "Expected object"
    end.

Section Tools.
Variable net : Network.
Variable base : string.

(** [getEnergyUsageSummary] *)
Definition getEnergyUsageSummary_execute (_ : unit) : JS.json :=
  match fetchJSON net (base ++ "/peak")%string None with
  | Ok data => data
  | Throw message =>
      errorObject ("Failed to fetch energy usage summary: " ++ message)%string
  end.

Definition getEnergyUsageSummary : JS.json -> ToolResult :=
  callTool z_empty_object getEnergyUsageSummary_execute.

(** [getDeviceConsumptionData] *)
Definition getDeviceConsumptionData_execute (_ : unit) : JS.json :=
  match fetchJSON net (base ++ "/devices")%string None with
  | Ok data => data
  | Throw message =>
      errorObject
        ("Failed to fetch device consumption data: " ++ message)%string
  end.

Definition getDeviceConsumptionData : JS.json -> ToolResult :=
  callTool z_empty_object getDeviceConsumptionData_execute.

(** [getSpecificDeviceDetails] *)
Definition getSpecificDeviceDetails_inputSchema : schema string :=
  z_object "deviceName" (z_min_length 1 z_string).

Definition deviceUrl (deviceName : string) : string :=
  (base ++ "/device/" ++ encodeURIComponent deviceName)%string.

Definition getSpecificDeviceDetails_execute (deviceName : string) : JS.json :=
  match fetchJSON net (deviceUrl deviceName) None with
  | Ok data => data
  | Throw message =>
      errorObject
        ("Failed to fetch details for " ++ deviceName ++ ": " ++ message)%string
  end.

Definition getSpecificDeviceDetails : JS.json -> ToolResult :=
  callTool getSpecificDeviceDetails_inputSchema
           getSpecificDeviceDetails_execute.

(** [getGeneralEnergySuggestions] *)
Definition getGeneralEnergySuggestions_execute (_ : unit) : JS.json :=
  match fetchJSON net (base ++ "/suggestions")%string None with
  | Ok data => data
  | Throw message =>
      errorObject
        ("Failed to fetch general energy suggestions: " ++ message)%string
  end.

Definition getGeneralEnergySuggestions : JS.json -> ToolResult :=
  callTool z_empty_object getGeneralEnergySuggestions_execute.

(** What a tool hands back for the request of [url]: the body of an
    [ok] answer that came before the default timeout, or the object
    tagged [error] whose message starts with [prefix]. *)
Definition answer_or_error (url prefix : string) (out : JS.json) : Prop :=
  (exists after res,
      net url = Answers after res /\ (after < 10000)%N /\
      ok res = true /\ json res = Ok out)
  \/ exists message, out = errorObject (prefix ++ message)%string.

End Tools.


End MoreTools.

(** ** The endpoints the page reads *)

Module Endpoints.

Definition all : list string := ["/peak"; "/predict"; "/suggestions"; "/devices"].

End Endpoints.

(** ** components/device-threshold-overview.tsx *)

Module DeviceThresholdOverview.
Import JS.

(** [x < y]. *)
Definition ltb (x y : number) : bool := gtb y x.

(** [Math.max] of two arguments. *)
Definition Math_max (x y : number) : number :=
  match x, y with
  | NaN, _ | _, NaN => NaN
  | _, _ => if leb x y then y else x
  end.


Definition getProgressValue (current threshold : number) (type : string)
  : number :=
  if String.eqb type "greater_than" then
    Math_min ((current / threshold) * Num 100) (Num 100)
  else if String.eqb type "less_than" then
    Math_max (Num 100 - (current / threshold) * Num 100) (Num 0)
  else Num 50.


End DeviceThresholdOverview.


(** * The analytics page

    [src/components/analytics.tsx]: the figures the component derives
    from [deviceData] before it renders. *)

Module Analytics.
Import JS.

(** The members the component reads of a device. *)
Module Device.
Record t : Type :=
  { currentPower : number; totalEnergy : number; efficiency : number }.
End Device.

(** [Object.entries(deviceData)]. *)
Definition Entries : Type := list (string * Device.t).

(** [x >= y]. *)
Definition geb (x y : number) : bool := leb y x.

(** [x < y]. *)
Definition ltb (x y : number) : bool := gtb y x.

(** [x || y] on numbers. *)
Definition number_or (x y : number) : number :=
  match x with
  | NaN => y
  | Num q => if Qeq_bool q 0 then y else x
  | _ => x
  end.

(** The number of a length. *)
Definition of_length (n : nat) : number := Num (inject_Z (Z.of_nat n)).

Definition totalDevices (deviceEntries : Entries) : nat :=
  length deviceEntries.

Definition activeDevices (deviceEntries : Entries) : nat :=
  length
    (filter (fun entry => Device.currentPower (snd entry) >? Num 0)
       deviceEntries).

Definition avgEfficiency (deviceEntries : Entries) : number :=
  if (0 <? totalDevices deviceEntries)%nat then
    fold_left (fun sum entry => sum + Device.efficiency (snd entry))
      deviceEntries (Num 0)
    / of_length (totalDevices deviceEntries)
  else Num 0.

(** The value of the metric labelled Device Utilization. *)
Definition deviceUtilization (deviceEntries : Entries) : number :=
  number_or
    ((of_length (activeDevices deviceEntries)
      / of_length (totalDevices deviceEntries)) * Num 100)
    (Num 0).

(** The line under the efficiency of a device. *)
Definition efficiencyLabel (data : Device.t) : string :=
  if geb (Device.efficiency data) (Num 90) then "Excellent"
  else if geb (Device.efficiency data) (Num 80) then "Good"
  else "Needs improvement".

(** The names listed under High Efficiency Devices, Moderate Efficiency
    and Needs Attention, before they are joined. *)
Definition highEfficiency (deviceEntries : Entries) : list string :=
  map fst
    (filter (fun entry => geb (Device.efficiency (snd entry)) (Num 90))
       deviceEntries).

Definition moderateEfficiency (deviceEntries : Entries) : list string :=
  map fst
    (filter
       (fun entry =>
          geb (Device.efficiency (snd entry)) (Num 80)
          && ltb (Device.efficiency (snd entry)) (Num 90))
       deviceEntries).

Definition needsAttention (deviceEntries : Entries) : list string :=
  map fst
    (filter (fun entry => ltb (Device.efficiency (snd entry)) (Num 80))
       deviceEntries).

End Analytics.

(** * Adding an alert setting

    [handleAddAlertSetting] of the alert management component
    ([src/unnamed/part_003], lines 166 to 226), with the
    [loadAlertSettings] it starts after a successful request. *)

Module AlertManagement.
Import JS.

Module NewSetting.
Record t : Type :=
  { setting_name : string; device_name : string; threshold_value : string;
    threshold_type : string; is_enabled : bool; is_device_specific : bool }.
End NewSetting.

Record Toast : Type :=
  { title : string; description : string; destructive : bool }.

Record State : Type :=
  { alertSettings : json; newSetting : NewSetting.t; loading : bool }.

(** What is asked of the service. *)
Inductive Request : Type :=
| Post (body : json)
| Get.

(** The members the handler reads of the body of a refusal. *)
Module ErrorBody.
Record t : Type := { error : option string }.
End ErrorBody.

Inductive Fetched (A : Type) : Type :=
| Rejected (message : string)
| Resolved (ok : bool) (json : result A).
Arguments Rejected {A} message.
Arguments Resolved {A} ok json.

(** The service: the answer to the [POST] of a body, and the answer to
    the [GET] of the settings. *)
Record Backend : Type :=
  { post : json -> Fetched ErrorBody.t; get : Fetched json }.

Definition setLoading (st : State) (v : bool) : State :=
  {| alertSettings := alertSettings st; newSetting := newSetting st;
     loading := v |}.

Definition setNewSetting (st : State) (v : NewSetting.t) : State :=
  {| alertSettings := alertSettings st; newSetting := v;
     loading := loading st |}.

Definition setAlertSettings (st : State) (v : json) : State :=
  {| alertSettings := v; newSetting := newSetting st;
     loading := loading st |}.

Definition failure (description : string) : Toast :=
  {| title := "Error"; description := description; destructive := true |}.

Definition blank : NewSetting.t :=
  {| NewSetting.setting_name := ""; NewSetting.device_name := "";
     NewSetting.threshold_value := "";
     NewSetting.threshold_type := "greater_than";
     NewSetting.is_enabled := true;
     NewSetting.is_device_specific := false |}.

(** A number in [JSON.stringify]: what is not finite becomes [null]. *)
Definition stringify_number (x : number) : json :=
  match x with
  | Num q => JNumber q
  | _ => JNull
  end.

(** The object the handler serialises. *)
Definition body_of (s : NewSetting.t) : json :=
  JObject
    [ ("setting_name", JString (NewSetting.setting_name s));
      ("device_name",
        if NewSetting.is_device_specific s
        then JString (NewSetting.device_name s) else JNull);
      ("threshold_value",
        stringify_number (parseFloat (NewSetting.threshold_value s)));
      ("threshold_type", JString (NewSetting.threshold_type s));
      ("is_enabled", JBool (NewSetting.is_enabled s)) ].

Definition loadAlertSettings (backend : Backend) (st : State)
  : State * list Toast :=
  match get backend with
  | Rejected _ => (st, [failure "Failed to load alert settings"])
  | Resolved true (Ok data) => (setAlertSettings st data, [])
  | Resolved true (Throw _) => (st, [failure "Failed to load alert settings"])
  | Resolved false _ => (st, [])
  end.

Definition handleAddAlertSetting (backend : Backend) (st : State)
  : State * list Toast * list Request :=
  let s := newSetting st in
  if String.eqb (NewSetting.setting_name s) ""
     || String.eqb (NewSetting.threshold_value s) "" then
    (st, [failure "Please fill in all required fields"], [])
  else if NewSetting.is_device_specific s
          && String.eqb (NewSetting.device_name s) "" then
    (st, [failure "Please select a device for device-specific threshold"],
     [])
  else
    let st1 := setLoading st true in
    match post backend (body_of s) with
    | Resolved true _ =>
        let st2 := setNewSetting st1 blank in
        let '(st3, toasts) := loadAlertSettings backend (setLoading st2 false) in
        (st3,
         {| title := "Success";
            description := "Alert setting added successfully";
            destructive := false |} :: toasts,
         [Post (body_of s); Get])
    | Resolved false (Ok refusal) =>
        (setLoading st1 false,
         [failure
            (DataUpload.string_or (ErrorBody.error refusal)
               "Failed to add alert setting")],
         [Post (body_of s)])
    | Resolved false (Throw message) | Rejected message =>
        (setLoading st1 false, [failure message], [Post (body_of s)])
    end.

End AlertManagement.
(** ** Properties of [toFixed] *)

Module JSFacts.
Import JS.
Local Open Scope Q_scope.

Lemma Qle_bool_false (a b : Q) : Qle_bool a b = false <-> b < a.
Proof.
  split; intro H.
  - apply Qnot_le_lt. intro L. apply Qle_bool_iff in L. congruence.
  - destruct (Qle_bool a b) eqn:E; [|reflexivity].
    apply Qle_bool_iff in E. lra.
Qed.

Lemma sgn_nonneg (q : Q) : 0 <= q -> sgn q <> Lt.
Proof.
  unfold sgn. intros H C. apply Qlt_alt in C. lra.
Qed.

Lemma pow10_pos (d : nat) : 0 < inject_Z (10 ^ Z.of_nat d).
Proof.
  change 0 with (inject_Z 0). rewrite <- Zlt_Qlt.
  apply Z.pow_pos_nonneg; lia.
Qed.

(** On a number that is not negative, [toFixed] is [floor (10^d x + 1/2)]
    with no sign. *)
Lemma toFixed_nonneg (q : Q) (d : nat) :
  0 <= q ->
  toFixed (Num q) d =
  Dec false (Qfloor (inject_Z (10 ^ Z.of_nat d) * q + (1 # 2))) d.
Proof.
  intro H. unfold toFixed.
  pose proof (sgn_nonneg H) as Hs.
  replace (match sgn q with Lt => true | _ => false end) with false
    by (destruct (sgn q); congruence).
  f_equal. apply Qfloor_comp. rewrite (Qabs_pos q H). reflexivity.
Qed.

Lemma sgn_pos (q : Q) : 0 < q -> sgn q = Gt.
Proof. unfold sgn. intro H. now apply Qgt_alt. Qed.








(** [toFixed] keeps the order of numbers that are not negative. *)
Lemma toFixed_mono (q1 q2 : Q) (d : nat) :
  0 <= q1 -> q1 <= q2 ->
  (value (toFixed (Num q1) d) <=? value (toFixed (Num q2) d))%js = true.
Proof.
  intros H1 H12.
  rewrite (toFixed_nonneg d H1), (toFixed_nonneg d) by lra.
  cbn [value leb]. apply Qle_bool_iff.
  pose proof (pow10_pos d) as Hp.
  set (p := inject_Z (10 ^ Z.of_nat d)) in *.
  apply Qmult_le_compat_r; [|apply Qlt_le_weak, Qinv_lt_0_compat, Hp].
  rewrite <- Zle_Qle. apply Qfloor_resp_le.
  assert (p * q1 <= p * q2) by (apply Qmult_le_l; assumption). lra.
Qed.

End JSFacts.

(** ** Properties of the slab walk *)

Module QuantumCalculatorFacts.
Import JS JSFacts QuantumCalculator.
Local Open Scope Q_scope.

Ltac case_leb a b :=
  let E := fresh "E" in
  destruct (Qle_bool a b) eqn:E;
  [apply Qle_bool_iff in E | apply Qle_bool_false in E].

(** One pass over a usable slab with something remaining. *)
Lemma slabUnits_of_spec (slab : Slab.t) (r : Q) :
  wf_slab slab -> 0 < r ->
  exists k, slabUnits_of (Num r) slab = Num k /\ 0 < k /\ k <= r /\
            (unbounded slab -> k == r).
Proof.
  intros [_ [Hinf | (c & Hc & Hpos)]] Hr;
    unfold slabUnits_of, unbounded; fold (capacity slab).
  - rewrite Hinf. exists r. simpl. repeat split; try lra. 
  - rewrite Hc. simpl. case_leb r c.
    + exists r. repeat split; try lra. 
    + exists c. repeat split; try lra. intro H; discriminate H.
Qed.

(** The same pass seen from two amounts remaining. *)
Lemma slabUnits_of_mono (slab : Slab.t) (r1 r2 : Q) :
  wf_slab slab -> 0 < r1 -> r1 <= r2 ->
  exists k1 k2,
    slabUnits_of (Num r1) slab = Num k1 /\
    slabUnits_of (Num r2) slab = Num k2 /\
    0 < k1 /\ k1 <= k2 /\ k1 <= r1 /\ r1 - k1 <= r2 - k2.
Proof.
  intros [_ [Hinf | (c & Hc & Hpos)]] Hr H12;
    unfold slabUnits_of; fold (capacity slab).
  - rewrite Hinf. exists r1, r2. simpl. repeat split; lra.
  - rewrite Hc. simpl. case_leb r1 c; case_leb r2 c.
    + exists r1, r2. repeat split; lra.
    + exists r1, c. repeat split; lra.
    + exists c, r2. repeat split; lra.
    + exists c, c. repeat split; lra.
Qed.

Lemma sum_units_app (rows : list Row.t) (row : Row.t) (k s : Q) :
  Row.units row = Num k -> sum_units rows = Num s ->
  sum_units (row :: rows) = Num (k + s).
Proof. intros Hk Hs. simpl. rewrite Hk. fold (sum_units rows). now rewrite Hs. Qed.

(** The loop from a state of finite numbers: it ends in finite numbers,
    appends rows whose units add up to what it took from
    [remainingUnits], never lowers [totalAmount], and leaves nothing
    when the table has an unbounded slab. *)
Lemma for_slabs_spec (table : list Slab.t) :
  Forall wf_slab table ->
  forall (t r : Q) (bd : list Row.t), 0 <= r ->
  exists (t' r' : Q) (rows : list Row.t),
    for_slabs table (Num t) (Num r) bd = (Num t', Num r', bd ++ rows) /\
    0 <= r' /\ r' <= r /\ t <= t' /\
    (exists s, sum_units rows = Num s /\ s + r' == r) /\
    Forall row_ok rows /\
    (Exists unbounded table -> r' == 0).
Proof.
  induction 1 as [|slab rest Hwf Hrest IH]; intros t r bd Hr.
  - exists t, r, []. simpl. rewrite app_nil_r.
    split; [reflexivity|]. do 3 (split; [lra|]).
    split; [exists 0; split; [reflexivity | lra]|].
    split; [constructor|]. intro H; inversion H.
  - cbn [for_slabs leb]. case_leb r 0.
    + exists t, r, []. rewrite app_nil_r.
      split; [reflexivity|]. do 3 (split; [lra|]).
      split; [exists 0; split; [reflexivity | lra]|].
      split; [constructor|]. intros _; lra.
    + destruct (slabUnits_of_spec Hwf E) as (k & Hk & Hk0 & Hkr & Hun).
      destruct Hwf as [(rate & Hrate & Hrate0) Hcap].
      rewrite Hk, Hrate. cbn [mul add sub neg].
      destruct (IH (t + k * rate) (r + - k)
                   (bd ++ [row_of slab (Num k) (Num (k * rate))]))
        as (t' & r' & rows & Heq & Hr' & Hle & Ht' & (s & Hs & Hsum)
            & Hrows & Hz); [lra|].
      exists t', r', (row_of slab (Num k) (Num (k * rate)) :: rows).
      rewrite Heq, <- app_assoc. cbn [app].
      split; [reflexivity|]. split; [assumption|]. split; [lra|].
      split.
      { assert (0 <= k * rate) by (apply Qmult_le_0_compat; lra). lra. }
      split.
      { exists (k + s). split; [now apply sum_units_app | lra]. }
      split.
      { constructor; [|assumption]. unfold row_ok; simpl.
        split; [exists k; split; [reflexivity | assumption]|].
        split; [exists rate; split; assumption|].
        rewrite Hrate. reflexivity. }
      intro Hex. inversion Hex as [? ? Hu | ? ? Hu]; subst.
      * specialize (Hun Hu). lra.
      * now apply Hz.
Qed.


Lemma for_slabs_done (slab : Slab.t) (rest : list Slab.t)
    (t : number) (r : Q) (bd : list Row.t) :
  r <= 0 ->
  for_slabs (slab :: rest) t (Num r) bd = (t, Num r, bd).
Proof.
  intro H. cbn [for_slabs leb]. apply Qle_bool_iff in H. now rewrite H.
Qed.

Lemma for_slabs_step (slab : Slab.t) (rest : list Slab.t)
    (t : number) (r : Q) (bd : list Row.t) :
  0 < r ->
  for_slabs (slab :: rest) t (Num r) bd =
  for_slabs rest
    (t + slabUnits_of (Num r) slab * Slab.rate slab)%js
    (Num r - slabUnits_of (Num r) slab)%js
    (bd ++ [row_of slab (slabUnits_of (Num r) slab)
                   (slabUnits_of (Num r) slab * Slab.rate slab)%js]).
Proof.
  intro H. cbn [for_slabs leb]. apply Qle_bool_false in H. now rewrite H.
Qed.

(** Two walks of one table: more remaining and more accumulated at the
    start give more accumulated at the end. *)
Lemma for_slabs_mono (table : list Slab.t) :
  Forall wf_slab table ->
  forall (t1 t2 r1 r2 : Q) (bd1 bd2 : list Row.t),
    0 <= r1 -> r1 <= r2 -> t1 <= t2 ->
    exists (T1 R1 T2 R2 : Q) (B1 B2 : list Row.t),
      for_slabs table (Num t1) (Num r1) bd1 = (Num T1, Num R1, B1) /\
      for_slabs table (Num t2) (Num r2) bd2 = (Num T2, Num R2, B2) /\
      T1 <= T2.
Proof.
  induction 1 as [|slab rest Hwf Hrest IH]; intros t1 t2 r1 r2 bd1 bd2 H0 Hr Ht.
  - exists t1, r1, t2, r2, bd1, bd2. simpl. auto.
  - destruct (Qlt_le_dec 0 r1) as [Hpos | Hzero].
    + rewrite !for_slabs_step by lra.
      destruct (slabUnits_of_mono Hwf Hpos Hr)
        as (k1 & k2 & Hk1 & Hk2 & Hk1pos & Hk & Hk1r & Hrem).
      destruct Hwf as [(rate & Hrate & Hrate0) _].
      rewrite Hk1, Hk2, Hrate. cbn [mul add sub neg].
      apply IH; [lra | lra |].
      assert (k1 * rate <= k2 * rate) by (apply Qmult_le_compat_r; lra).
      lra.
    + rewrite for_slabs_done by assumption.
      destruct (@for_slabs_spec (slab :: rest)
                  (Forall_cons _ Hwf Hrest) t2 r2 bd2)
        as (T2 & R2 & rows & Heq & _ & _ & HT & _); [lra|].
      exists t1, r1, T2, R2, bd1, (bd2 ++ rows).
      repeat split; [assumption | lra].
Qed.

(** The table of the component is usable and ends unbounded. *)
Lemma slabs_wf : Forall wf_slab slabs.
Proof.
  unfold slabs.
  repeat (apply Forall_cons || apply Forall_nil);
    (split;
     [ eexists; split; [reflexivity | unfold Qle; simpl; lia]
     | first [ left; reflexivity
             | right; eexists; split;
               [reflexivity | unfold Qlt; simpl; lia] ] ]).
Qed.



(** With a positive number in the input the handler stores the walk of
    the table. *)
Lemma calculateBill_stores_computeBill (st : State) (u : Q) :
  parseFloat (units st) = Num u -> 0 < u ->
  result (calculateBill st) = Some (computeBill slabs (Num u)).
Proof.
  intros Hp Hu. unfold calculateBill. rewrite Hp. cbn [isNaN leb orb].
  apply Qle_bool_false in Hu. rewrite Hu. reflexivity.
Qed.

(** C1 (evaluation): for the input [150] the first slab, [0] to [100],
    takes [100 - 0 + 1 = 101] units, so the stored bill has the rows
    (0, 100, 101 units, rate 0, 0.00) and (101, 200, 49 units, rate
    2.25, 110.25) and the total 110.25, where the tariff shown by the
    component gives 100 and 50 units and 112.50. *)
Theorem calculateBill_150 :
  let st := {| units := "150"; result := None; isCalculating := false |} in
  result (calculateBill st) =
    Some {| Result.units := Num 150;
            Result.total_amount := Dec false 11025 2;
            Result.breakup :=
              [ {| Row.from := Num 0; Row.to := To (Num 100);
                   Row.units := Num 101; Row.rate := Num 0;
                   Row.amount := Dec false 0 2 |};
                {| Row.from := Num 101; Row.to := To (Num 200);
                   Row.units := Num 49; Row.rate := Num 2.25;
                   Row.amount := Dec false 11025 2 |} ] |} /\
  show (Dec false 11025 2) = "110.25" /\
  show (Dec false 0 2) = "0.00".
Proof. vm_compute. auto. Qed.

(** The widths behind C1: the first slab takes 101 units, and counted
    from the first unit it would take 100 and give the rows and the
    total of the tariff card. *)
Example first_slab_width :
  map capacity (firstn 2 slabs) = [Num 101; Num 100] /\
  map (fun row => (Row.units row, show (Row.amount row)))
      (Result.breakup (computeBill Samples.slabsFromFirstUnit (Num 150)))
    = [(Num 100, "0.00"); (Num 50, "112.50")] /\
  show (Result.total_amount
          (computeBill Samples.slabsFromFirstUnit (Num 150))) = "112.50".
Proof. vm_compute. repeat split. Qed.



(** C6: the total of the bill does not decrease when the units grow. *)
Theorem computeBill_total_monotone (u1 u2 : Q) :
  0 <= u1 -> u1 <= u2 ->
  (value (Result.total_amount (computeBill slabs (Num u1)))
   <=? value (Result.total_amount (computeBill slabs (Num u2))))%js = true.
Proof.
  intros H1 H12.
  destruct (for_slabs_mono slabs_wf [] [] H1 H12 (Qle_refl 0))
    as (T1 & R1 & T2 & R2 & B1 & B2 & E1 & E2 & HT).
  destruct (for_slabs_spec slabs_wf 0 [] H1)
    as (t' & r' & rows & Heq & _ & _ & Ht' & _).
  unfold computeBill. rewrite E2. rewrite E1 in Heq |- *.
  cbn [Result.total_amount].
  injection Heq as HT1 _ _.
  apply toFixed_mono; [|assumption].
  rewrite HT1. assumption.
Qed.

Lemma computeBill_total_monotone_witness :
  (value (Result.total_amount (computeBill slabs (Num 150)))
   <=? value (Result.total_amount (computeBill slabs (Num 151.5))))%js = true.
Proof.
  apply (@computeBill_total_monotone 150 151.5); unfold Qle; simpl; lia.
Defined.

End QuantumCalculatorFacts.

(** ** The guards of the two calculators *)

Module GuardFacts.
Import JS JSFacts Samples.
Local Open Scope Q_scope.

(** C3 (counterexample): on the input [0] neither calculator produces a
    bill, empty or not: the first leaves its result unset, the second
    sets its error and asks the service nothing, even one that would
    answer with the empty bill. *)
Lemma zero_units_gives_no_bill :
  ~ (exists bill,
        QuantumCalculator.result
          (QuantumCalculator.calculateBill (blankQuantum "0")) = Some bill) /\
  ~ (exists bill,
        BillCalculator.billData
          (fst (BillCalculator.calculateBill obliging (blankBill "0")))
        = Some bill) /\
  BillCalculator.calculateBill obliging (blankBill "0") =
    ({| BillCalculator.units := "0";
        BillCalculator.billData := None;
        BillCalculator.isLoading := false;
        BillCalculator.error :=
          "Please enter a valid number of units (greater than 0)" |}, []).
Proof.
  repeat split.
  - intros (bill & H). vm_compute in H. discriminate H.
  - intros (bill & H). vm_compute in H. discriminate H.
Qed.

(** C3 (amended): an input that parses to [NaN], to zero or to a
    negative number is refused by both calculators.  The first returns
    with its state as it was; the second sets its error, keeps the rest
    of its state and sends nothing to the service. *)
Theorem nonpositive_units_refused (v : number) :
  isNaN v || (v <=? Num 0)%js = true ->
  (forall st : QuantumCalculator.State,
      parseFloat (QuantumCalculator.units st) = v ->
      QuantumCalculator.calculateBill st = st) /\
  (forall (backend : BillCalculator.Backend) (st : BillCalculator.State),
      parseFloat (BillCalculator.units st) = v ->
      BillCalculator.calculateBill backend st =
        (BillCalculator.setError st
           "Please enter a valid number of units (greater than 0)", [])).
Proof.
  intro Hv. split.
  - intros st Hp. unfold QuantumCalculator.calculateBill.
    rewrite Hp, Hv. reflexivity.
  - intros backend st Hp. unfold BillCalculator.calculateBill.
    rewrite Hp, Hv. reflexivity.
Qed.

Lemma nonpositive_units_refused_witness :
  QuantumCalculator.calculateBill (blankQuantum "-5") = blankQuantum "-5" /\
  QuantumCalculator.calculateBill (blankQuantum "abc") = blankQuantum "abc" /\
  BillCalculator.calculateBill obliging (blankBill "0") =
    (BillCalculator.setError (blankBill "0")
       "Please enter a valid number of units (greater than 0)", []).
Proof.
  split; [|split].
  - apply (proj1 (@nonpositive_units_refused (Num (-5)) eq_refl)).
    vm_compute. reflexivity.
  - apply (proj1 (@nonpositive_units_refused NaN eq_refl)).
    vm_compute. reflexivity.
  - apply (proj2 (@nonpositive_units_refused (Num 0) eq_refl)).
    vm_compute. reflexivity.
Defined.

(** C10: an input above 10000 is refused by the bill calculator with
    its own error; nothing is sent to the service, and the bill on
    display is left as it was. *)
Theorem units_above_limit_refused
    (backend : BillCalculator.Backend) (st : BillCalculator.State)
    (v : number) :
  parseFloat (BillCalculator.units st) = v ->
  (v >? Num 10000)%js = true ->
  BillCalculator.calculateBill backend st =
    (BillCalculator.setError st
       "Units seem too high. Please check your input.", []) /\
  BillCalculator.billData (fst (BillCalculator.calculateBill backend st)) =
    BillCalculator.billData st /\
  snd (BillCalculator.calculateBill backend st) = [].
Proof.
  intros Hp Hv.
  assert (H : BillCalculator.calculateBill backend st =
              (BillCalculator.setError st
                 "Units seem too high. Please check your input.", [])).
  { unfold BillCalculator.calculateBill. rewrite Hp, Hv.
    destruct v as [| |q|]; try discriminate Hv; [|reflexivity].
    cbn [gtb leb negb] in Hv. apply negb_true_iff, Qle_bool_false in Hv.
    cbn [isNaN leb orb].
    assert (Hq : Qle_bool q 0 = false) by (apply Qle_bool_false; lra).
    rewrite Hq. reflexivity. }
  rewrite H. repeat split.
Qed.

Lemma units_above_limit_refused_witness :
  BillCalculator.calculateBill obliging (blankBill "10000.5") =
    (BillCalculator.setError (blankBill "10000.5")
       "Units seem too high. Please check your input.", []) /\
  BillCalculator.billData
    (fst (BillCalculator.calculateBill obliging (blankBill "10000.5"))) =
    BillCalculator.billData (blankBill "10000.5") /\
  snd (BillCalculator.calculateBill obliging (blankBill "10000.5")) = [].
Proof.
  apply (@units_above_limit_refused obliging (blankBill "10000.5")
           (Num (20001 # 2))).
  - vm_compute. reflexivity.
  - vm_compute. reflexivity.
Defined.

(** At the limit itself the request is made. *)
Example units_at_limit_sent :
  BillCalculator.calculateBill obliging (blankBill "10000") =
    ({| BillCalculator.units := "10000";
        BillCalculator.billData := Some emptyBill;
        BillCalculator.isLoading := false;
        BillCalculator.error := "" |}, [Num 10000]).
Proof. vm_compute. reflexivity. Qed.

End GuardFacts.

(** ** The fallback forecast of the dashboard *)

Module ForecastFacts.
Import JS JSFacts Samples ProfessionalDashboard.
Local Open Scope Q_scope.

(** The numbers the fallback rounds, from a base energy [p] and a
    horizon of [d] days. *)
Lemma scaled_by_period (p d : Q) :
  (Num p * (Num d / Num 30))%js = Num (p * (d / 30)).
Proof. reflexivity. Qed.








End ForecastFacts.

(** ** The chat tools *)

Module AgentToolsFacts.
Import JS JSFacts Samples AgentTools.
Local Open Scope Q_scope.

Lemma isInteger_iff (q : Q) :
  isInteger q = true <-> exists n : Z, q == inject_Z n.
Proof.
  unfold isInteger. rewrite Qeq_bool_iff. split.
  - intro H. exists (Qfloor q). symmetry. exact H.
  - intros (n & H). rewrite (Qfloor_comp _ _ H), Qfloor_Z. symmetry. exact H.
Qed.

(** What the schema of [days] gives on a member that is present. *)
Lemma days_schema_present (fields : list (string * JS.json)) (j : JS.json) :
  lookup "days" fields = Some j ->
  getPredictedBillAndTariff_inputSchema (Some (JObject fields)) =
  match j with
  | JNumber q =>
      if isInteger q then
        if (1 <=? Qfloor q)%Z then
          if (Qfloor q <=? 365)%Z then Ok (Some (Qfloor q))
          else Throw "Number too big"
        else Throw "Number too small"
      else Throw "Expected integer"
  | _ => Throw "Expected number"
  end.
Proof.
  intro H. unfold getPredictedBillAndTariff_inputSchema, z_object.
  rewrite H. unfold z_optional, z_max, z_min, z_int, z_number.
  destruct j; try reflexivity.
  destruct (isInteger q); [|reflexivity].
  destruct (1 <=? Qfloor q)%Z; [|reflexivity].
  destruct (Qfloor q <=? 365)%Z; reflexivity.
Qed.

(** Without the member the tool asks for thirty days. *)
Lemma days_absent_defaults (net : Network) (base : string)
    (fields : list (string * JS.json)) :
  lookup "days" fields = None ->
  getPredictedBillAndTariff net base (JObject fields) =
    Executed (getPredictedBillAndTariff_execute net base None) /\
  getPredictedBillAndTariff_execute net base None =
    getPredictedBillAndTariff_execute net base (Some 30%Z).
Proof.
  intro H. split; [|reflexivity].
  unfold getPredictedBillAndTariff, callTool,
    getPredictedBillAndTariff_inputSchema, z_object.
  rewrite H. reflexivity.
Qed.

(** C7: a [days] member is accepted exactly when it is an integer from
    1 to 365, and then that integer is the one the request is made
    with; any other value is refused as invalid input and nothing is
    executed. *)
Theorem predict_days_within_bounds
    (net : Network) (base : string)
    (fields : list (string * JS.json)) (j : JS.json) :
  lookup "days" fields = Some j ->
  let call := getPredictedBillAndTariff net base (JObject fields) in
  (exists (q : Q) (n : Z),
      j = JNumber q /\ q == inject_Z n /\ (1 <= n <= 365)%Z /\
      call = Executed (getPredictedBillAndTariff_execute net base (Some n)))
  \/
  ((forall (q : Q) (n : Z),
       j = JNumber q -> q == inject_Z n -> ~ (1 <= n <= 365)%Z) /\
   exists issue, call = InvalidToolInput issue).
Proof.
  intros H call. subst call.
  unfold getPredictedBillAndTariff, callTool.
  rewrite (days_schema_present _ H).
  destruct j as [ | b | q | s | items | members];
    try (right; split; [intros q n E; discriminate E | eexists; reflexivity]).
  destruct (isInteger q) eqn:Hint.
  - apply isInteger_iff in Hint. destruct Hint as (n & Hn).
    assert (Hf : Qfloor q = n) by (rewrite (Qfloor_comp _ _ Hn); apply Qfloor_Z).
    rewrite Hf.
    assert (Hother : forall q' n', JNumber q = JNumber q' ->
                                   q' == inject_Z n' -> n' = n).
    { intros q' n' E Hn'. injection E as <-.
      rewrite Hn in Hn'. now apply eq_sym, inject_Z_injective. }
    destruct (1 <=? n)%Z eqn:Hlo; [destruct (n <=? 365)%Z eqn:Hhi|].
    + left. exists q, n. apply Z.leb_le in Hlo, Hhi. auto.
    + right. split; [|eexists; reflexivity].
      intros q' n' E Hn'. rewrite (Hother q' n' E Hn').
      apply Z.leb_gt in Hhi. lia.
    + right. split; [|eexists; reflexivity].
      intros q' n' E Hn'. rewrite (Hother q' n' E Hn').
      apply Z.leb_gt in Hlo. lia.
  - right. split; [|eexists; reflexivity].
    intros q' n' E Hn'. injection E as <-.
    assert (isInteger q = true) by (apply isInteger_iff; now exists n').
    congruence.
Qed.

Lemma predict_days_within_bounds_witness :
  (exists (q : Q) (n : Z),
      JNumber 365 = JNumber q /\ q == inject_Z n /\ (1 <= n <= 365)%Z /\
      getPredictedBillAndTariff silent (API_BASE None)
        (JObject [("days", JNumber 365)]) =
      Executed (getPredictedBillAndTariff_execute silent (API_BASE None)
                  (Some n)))
  \/
  ((forall (q : Q) (n : Z),
       JNumber 365 = JNumber q -> q == inject_Z n -> ~ (1 <= n <= 365)%Z) /\
   exists issue,
     getPredictedBillAndTariff silent (API_BASE None)
       (JObject [("days", JNumber 365)]) = InvalidToolInput issue).
Proof.
  apply (@predict_days_within_bounds silent (API_BASE None)
           [("days", JNumber 365)] (JNumber 365)).
  reflexivity.
Defined.

(** The horizons next to the bounds, a fraction and a string. *)
Example predict_days_samples :
  getPredictedBillAndTariff silent (API_BASE None)
    (JObject [("days", JNumber 0)]) = InvalidToolInput "Number too small" /\
  getPredictedBillAndTariff silent (API_BASE None)
    (JObject [("days", JNumber 366)]) = InvalidToolInput "Number too big" /\
  getPredictedBillAndTariff silent (API_BASE None)
    (JObject [("days", JNumber 1.5)]) = InvalidToolInput "Expected integer" /\
  getPredictedBillAndTariff silent (API_BASE None)
    (JObject [("days", JString "30")]) = InvalidToolInput "Expected number" /\
  predictUrl (API_BASE None) 365 = "http://localhost:5000/api/predict?days=365" /\
  getPredictedBillAndTariff (answering 120 sunny) (API_BASE None)
    (JObject [("days", JNumber 1)]) = Executed sunny.
Proof. vm_compute. repeat split. Qed.



(** An answer one millisecond before the timeout is used, one at the
    timeout is not. *)
Example weather_lookup_at_the_timeout :
  getWeatherData_execute (answering 9999 sunny) (API_BASE None) "Chennai"
    = sunny /\
  getWeatherData_execute (answering 10000 sunny) (API_BASE None) "Chennai"
    = errorObject
        "Failed to fetch weather data for Chennai: This operation was aborted" /\
  weatherUrl (API_BASE None) "New Delhi"
    = "http://localhost:5000/api/weather?city=New%20Delhi".
Proof. vm_compute. repeat split. Qed.

End AgentToolsFacts.

(** ** The upload *)

Module DataUploadFacts.
Import JS Samples DataUpload.

(** C9: an upload that does not go through (the text is no JSON, the
    JSON is no array, the request fails, the answer cannot be read, is
    not [ok] or has not the status [success]) ends with the status
    [error]; and whenever the status is not [success], neither callback
    has run: the state of the page is the one before. *)
Theorem failed_upload_publishes_nothing
    (App : Type) (connected : bool)
    (onDataUpload : json -> App -> App) (onDataLoaded : App -> App)
    (JSON_parse : string -> result json) (upload : json -> Fetched)
    (file : File) (status0 : UploadStatus) (app : App) :
  let final :=
    handleFile connected onDataUpload onDataLoaded JSON_parse upload file
               (status0, app) in
  (accepted JSON_parse upload file = false ->
   type (fst final) = Some error) /\
  (type (fst final) <> Some success -> snd final = app).
Proof.
  intro final. subst final. unfold handleFile, accepted. cbn [snd].
  destruct (endsWith (name file) ".json"); cbn [negb];
    [|split; [reflexivity | reflexivity]].
  destruct connected; cbn [negb]; [|split; reflexivity].
  destruct (JSON_parse (text file)) as [data | msg]; [|split; reflexivity].
  destruct (isArray data); cbn [negb andb]; [|split; reflexivity].
  destruct (upload data) as [msg | ok [result | msg]];
    try (split; reflexivity).
  destruct ok; cbn [andb]; [|split; reflexivity].
  destruct (UploadResult.status result) as [s|]; [|split; reflexivity].
  destruct (String.eqb s "success"); cbn [fst snd type].
  - split; [discriminate | intro H; contradiction H; reflexivity].
  - split; reflexivity.
Qed.

(** On the page: a file whose JSON is an object leaves the readings and
    the snapshot as they were, though the service would take it. *)
Lemma failed_upload_publishes_nothing_witness :
  let final :=
    mounted serving parseSample taking
            {| name := "readings.json"; text := "{}" |} (noStatus, loaded) in
  type (fst final) = Some error /\
  SmartEnergyDashboard.energyData (snd final)
    = SmartEnergyDashboard.energyData loaded /\
  SmartEnergyDashboard.dashboardData (snd final)
    = SmartEnergyDashboard.dashboardData loaded.
Proof.
  unfold mounted.
  destruct (@failed_upload_publishes_nothing
              SmartEnergyDashboard.State true
              (SmartEnergyDashboard.handleDataUpload serving)
              (SmartEnergyDashboard.loadDashboardData serving)
              parseSample taking
              {| name := "readings.json"; text := "{}" |} noStatus loaded)
    as [Herr Hsame].
  specialize (Herr eq_refl).
  assert (Hns : type (fst (handleFile true
              (SmartEnergyDashboard.handleDataUpload serving)
              (SmartEnergyDashboard.loadDashboardData serving)
              parseSample taking
              {| name := "readings.json"; text := "{}" |} (noStatus, loaded)))
                <> Some success)
    by (rewrite Herr; discriminate).
  specialize (Hsame Hns).
  cbn [snd loaded SmartEnergyDashboard.connection
       SmartEnergyDashboard.isConnected].
  rewrite Hsame. split; [exact Herr | split; reflexivity].
Defined.

(** The same file with an array in it goes through and replaces both. *)
Example accepted_upload_replaces_snapshot :
  let final :=
    mounted serving parseSample taking
            {| name := "readings.json"; text := "[]" |} (noStatus, loaded) in
  type (fst final) = Some success /\
  message (fst final) = "Successfully uploaded 2 energy readings" /\
  SmartEnergyDashboard.energyData (snd final) = JArray [] /\
  SmartEnergyDashboard.dashboardData (snd final) =
    Some {| SmartEnergyDashboard.DashboardData.peak := Some (JObject []);
            SmartEnergyDashboard.DashboardData.prediction := Some (JObject []);
            SmartEnergyDashboard.DashboardData.suggestions := JArray [] |}.
Proof. vm_compute. repeat split. Qed.

End DataUploadFacts.

(** ** The slab walk, row by row *)

Module QuantumRowsFacts.
Import JS JSFacts QuantumCalculator QuantumCalculatorFacts QuantumRows.
Local Open Scope Q_scope.

(** What a usable slab takes of a positive remainder: all of it, or its
    own width when that is less. *)
Lemma slabUnits_of_cases (slab : Slab.t) (r : Q) :
  wf_slab slab -> 0 < r ->
  slabUnits_of (Num r) slab = Num r \/
  (slabUnits_of (Num r) slab = capacity slab /\
   exists c, capacity slab = Num c /\ 0 < c /\ c < r).
Proof.
  intros [_ [Hinf | (c & Hc & Hpos)]] Hr;
    unfold slabUnits_of; fold (capacity slab).
  - rewrite Hinf. left. reflexivity.
  - rewrite Hc. cbn [Math_min leb]. case_leb r c.
    + left. reflexivity.
    + right. split; [reflexivity|]. exists c. auto.
Qed.

(** The rows the loop appends: they show the first slabs of the table
    in its order, all of them but the last have taken the whole width
    of their slab, and their amounts add up to what the loop added to
    [totalAmount]. *)
Lemma for_slabs_rows (table : list Slab.t) :
  Forall wf_slab table ->
  forall (t r : Q) (bd : list Row.t), 0 <= r ->
  exists (t' r' : Q) (rows : list Row.t),
    for_slabs table (Num t) (Num r) bd = (Num t', Num r', bd ++ rows) /\
    map shown_of_row rows =
      map shown_of_slab (firstn (length rows) table) /\
    Forall2 (fun row slab => Row.units row = capacity slab)
            (removelast rows) (firstn (length rows - 1) table) /\
    (exists s, sum_amounts rows = Num s /\ t' == t + s) /\
    (r <= 0 -> rows = []) /\
    (0 < r -> table <> [] -> rows <> []).
Proof.
  induction 1 as [|slab rest Hwf Hrest IH]; intros t r bd Hr.
  - exists t, r, []. cbn [for_slabs]. rewrite app_nil_r.
    split; [reflexivity|]. split; [reflexivity|].
    split; [constructor|].
    split; [exists 0; split; [reflexivity | lra]|].
    split; [reflexivity|]. intros _ H. contradiction H. reflexivity.
  - destruct (Qlt_le_dec 0 r) as [Hpos | Hzero].
    + rewrite for_slabs_step by assumption.
      assert (Hrate := proj1 Hwf). destruct Hrate as (rate & Hrate & Hrate0).
      assert (Hk : exists k,
                 slabUnits_of (Num r) slab = Num k /\ 0 < k /\ k <= r /\
                 (k < r -> Num k = capacity slab)).
      { destruct (slabUnits_of_cases Hwf Hpos) as [E | (E & c & Hc & Hc0 & Hcr)].
        - exists r. rewrite E. repeat split; try lra.
        - exists c. rewrite E, Hc. repeat split; try lra. }
      destruct Hk as (k & Ek & Hk0 & Hkr & Hfull).
      rewrite Ek, Hrate. cbn [mul add sub neg].
      destruct (IH (t + k * rate) (r + - k)
                   (bd ++ [row_of slab (Num k) (Num (k * rate))]))
        as (t' & r' & rows & Heq & Hshown & Hfulls & (s & Hs & Hsum)
            & Hnone & Hsome); [lra|].
      exists t', r', (row_of slab (Num k) (Num (k * rate)) :: rows).
      rewrite Heq, <- app_assoc. cbn [app].
      split; [reflexivity|].
      split.
      { cbn [length firstn map]. rewrite Hshown. reflexivity. }
      split.
      { destruct rows as [|row2 rows'].
        - cbn. constructor.
        - assert (Hlt : k < r).
          { destruct (Qlt_le_dec k r) as [L | G]; [exact L|].
            assert (Hno : row2 :: rows' = []) by (apply Hnone; lra).
            discriminate Hno. }
          change (removelast (row_of slab (Num k) (Num (k * rate))
                              :: row2 :: rows'))
            with (row_of slab (Num k) (Num (k * rate))
                  :: removelast (row2 :: rows')).
          cbn [length Nat.sub firstn] in Hfulls |- *.
          rewrite Nat.sub_0_r in Hfulls.
          constructor; [|exact Hfulls].
          cbn [row_of Row.units]. apply Hfull. exact Hlt. }
      split.
      { exists (k * rate + s). split.
        - cbn [sum_amounts fold_right row_of Row.units Row.rate].
          fold (sum_amounts rows). rewrite Hs, Hrate. reflexivity.
        - lra. }
      split.
      { intro H. lra. }
      intros _ _ H. discriminate H.
    + rewrite for_slabs_done by assumption.
      exists t, r, []. rewrite app_nil_r.
      split; [reflexivity|]. split; [reflexivity|].
      split; [constructor|].
      split; [exists 0; split; [reflexivity | lra]|].
      split; [reflexivity|]. intros H. lra.
Qed.

(** The same for the table of the calculator. *)
Lemma computeBill_rows (u : Q) :
  0 <= u ->
  exists (total : Q) (rows : list Row.t),
    computeBill slabs (Num u) =
      {| Result.units := Num u;
         Result.total_amount := toFixed (Num total) 2;
         Result.breakup := rows |} /\
    map shown_of_row rows = map shown_of_slab (firstn (length rows) slabs) /\
    Forall2 (fun row slab => Row.units row = capacity slab)
            (removelast rows) (firstn (length rows - 1) slabs) /\
    (exists s, sum_amounts rows = Num s /\ total == s) /\
    (u <= 0 -> rows = []) /\
    (0 < u -> rows <> []).
Proof.
  intro Hu.
  destruct (for_slabs_rows slabs_wf 0 [] Hu)
    as (t' & r' & rows & Heq & Hshown & Hfull & (s & Hs & Hsum)
        & Hnone & Hsome).
  exists t', rows. unfold computeBill. rewrite Heq. cbn [app].
  split; [reflexivity|]. split; [exact Hshown|]. split; [exact Hfull|].
  split; [exists s; split; [exact Hs | lra]|].
  split; [exact Hnone|].
  intro H. apply Hsome; [exact H | discriminate].
Qed.

(** X1: the rows of a bill are the first slabs of the table, in the
    order of the table and with the range and rate of their slab; there
    is no row for no units, at least one for any positive number of
    units, and never more than five. *)
Theorem breakup_follows_table (u : Q) :
  0 <= u ->
  let rows := Result.breakup (computeBill slabs (Num u)) in
  map shown_of_row rows = map shown_of_slab (firstn (length rows) slabs) /\
  (length rows <= 5)%nat /\
  (rows = [] <-> u == 0).
Proof.
  intro Hu.
  destruct (computeBill_rows Hu)
    as (total & rows & Heq & Hshown & _ & _ & Hnone & Hsome).
  rewrite Heq. cbn [Result.breakup].
  split; [exact Hshown|]. split.
  - assert (L : length (map shown_of_row rows) = length rows)
      by apply length_map.
    rewrite Hshown, length_map, length_firstn in L.
    change (length slabs) with 5%nat in L. lia.
  - split.
    + intro E. destruct (Qlt_le_dec 0 u) as [P | Z]; [|lra].
      contradiction (Hsome P E).
    + intro E. apply Hnone. lra.
Qed.

Lemma breakup_follows_table_witness :
  let rows := Result.breakup (computeBill slabs (Num 250)) in
  map shown_of_row rows = map shown_of_slab (firstn (length rows) slabs) /\
  (length rows <= 5)%nat /\
  (rows = [] <-> 250 == 0).
Proof. apply (@breakup_follows_table 250). unfold Qle; simpl; lia. Defined.

(** X2: every row of a bill but the last has taken the whole width of
    its slab, [to - from + 1]. *)
Theorem breakup_fills_slabs_in_turn (u : Q) :
  0 <= u ->
  let rows := Result.breakup (computeBill slabs (Num u)) in
  Forall2 (fun row slab => Row.units row = capacity slab)
          (removelast rows) (firstn (length rows - 1) slabs).
Proof.
  intro Hu.
  destruct (computeBill_rows Hu) as (total & rows & Heq & _ & Hfull & _).
  rewrite Heq. exact Hfull.
Qed.

Lemma breakup_fills_slabs_in_turn_witness :
  let rows := Result.breakup (computeBill slabs (Num 600)) in
  Forall2 (fun row slab => Row.units row = capacity slab)
          (removelast rows) (firstn (length rows - 1) slabs).
Proof. apply (@breakup_fills_slabs_in_turn 600). unfold Qle; simpl; lia. Defined.















End QuantumRowsFacts.

(** ** The request of the bill calculator *)

Module BillRequestFacts.
Import JS JSFacts Samples BillCalculator.
Local Open Scope Q_scope.

(** When the handler sends, it sends the parsed input, which is a
    number above zero and not above 10000. *)
Lemma calculateBill_sends (backend : Backend) (st : State) :
  let v := parseFloat (units st) in
  snd (calculateBill backend st) = [] \/
  (calculateBill backend st =
     (setIsLoading
        (request backend v
           (setBillData (setError (setIsLoading st true) "") None)) false,
      [v]) /\
   exists q, v = Num q /\ 0 < q /\ q <= 10000).
Proof.
  intro v. unfold calculateBill. fold v.
  destruct (isNaN v || (v <=? Num 0)%js) eqn:G1; [left; reflexivity|].
  destruct (v >? Num 10000)%js eqn:G2; [left; reflexivity|].
  right. split; [reflexivity|].
  destruct v as [| |q|]; try discriminate G1; try discriminate G2.
  exists q. split; [reflexivity|].
  cbn [isNaN leb orb] in G1. apply Qle_bool_false in G1.
  cbn [gtb leb] in G2. apply negb_false_iff, Qle_bool_iff in G2.
  split; assumption.
Qed.

(** X6: whatever is typed, the handler sends at most one request, and
    the number it sends is the parsed input, above 0 and at most
    10000. *)
Theorem requests_within_limits
    (backend : Backend) (st : State) (v : number) :
  In v (snd (calculateBill backend st)) ->
  snd (calculateBill backend st) = [v] /\
  v = parseFloat (units st) /\
  exists q, v = Num q /\ 0 < q /\ q <= 10000.
Proof.
  intro Hin.
  destruct (calculateBill_sends backend st) as [E | (E & q & Hq & H0 & H1)].
  - rewrite E in Hin. contradiction Hin.
  - rewrite E in Hin |- *. cbn [snd] in Hin |- *.
    destruct Hin as [<- | []].
    split; [reflexivity|]. split; [reflexivity|]. exists q. auto.
Qed.

Lemma requests_within_limits_witness :
  snd (calculateBill obliging (blankBill "10000")) = [Num 10000] /\
  Num 10000 = parseFloat (units (blankBill "10000")) /\
  exists q, Num 10000 = Num q /\ 0 < q /\ q <= 10000.
Proof.
  apply (@requests_within_limits obliging (blankBill "10000") (Num 10000)).
  vm_compute. left. reflexivity.
Defined.

(** X7: after a request has been sent the handler is no longer
    loading, and it shows a bill exactly when the service answered [ok]
    with that bill as its body; the bill shown before is gone in every
    other case, and a bill is never shown together with an error. *)
Theorem bill_shown_only_from_service
    (backend : Backend) (st : State) (v : number) :
  snd (calculateBill backend st) = [v] ->
  let st' := fst (calculateBill backend st) in
  isLoading st' = false /\
  (forall d,
      billData st' = Some d <->
      exists response,
        backend v = Resolved response /\ ok response = true /\
        json response = Ok (BillPayload d)) /\
  (billData st' <> None -> error st' = "").
Proof.
  intro Hsent.
  destruct (calculateBill_sends backend st) as [E | (E & _)].
  - rewrite E in Hsent. discriminate Hsent.
  - rewrite E in Hsent |- *. cbn [snd fst] in Hsent |- *.
    injection Hsent as Hv. rewrite Hv.
    split; [reflexivity|].
    unfold request.
    destruct (backend v) as [message | response].
    + split.
      * intro d. split; [intro H; discriminate H|].
        intros (response & H & _). discriminate H.
      * intro H. contradiction H. reflexivity.
    + destruct (ok response) eqn:Hok; cbn [negb].
      * destruct (json response) as [[e | data] | message] eqn:Hjson.
        -- split.
           ++ intro d. split; [intro H; discriminate H|].
              intros (r & Hr & _ & Hj). injection Hr as <-.
              rewrite Hjson in Hj. discriminate Hj.
           ++ intro H. contradiction H. reflexivity.
        -- split.
           ++ intro d. split.
              ** intro H. cbn in H. injection H as <-.
                 exists response. auto.
              ** intros (r & Hr & _ & Hj). injection Hr as <-.
                 rewrite Hjson in Hj. injection Hj as <-. reflexivity.
           ++ intros _. reflexivity.
        -- split.
           ++ intro d. split; [intro H; discriminate H|].
              intros (r & Hr & _ & Hj). injection Hr as <-.
              rewrite Hjson in Hj. discriminate Hj.
           ++ intro H. contradiction H. reflexivity.
      * split.
        -- intro d. split; [intro H; discriminate H|].
           intros (r & Hr & Hk & _). injection Hr as <-. congruence.
        -- intro H. contradiction H. reflexivity.
Qed.

Lemma bill_shown_only_from_service_witness :
  let st' := fst (calculateBill obliging (blankBill "250")) in
  isLoading st' = false /\
  (forall d,
      billData st' = Some d <->
      exists response,
        obliging (Num 250) = Resolved response /\ ok response = true /\
        json response = Ok (BillPayload d)) /\
  (billData st' <> None -> error st' = "").
Proof.
  apply (@bill_shown_only_from_service obliging (blankBill "250") (Num 250)).
  vm_compute. reflexivity.
Defined.

End BillRequestFacts.

(** ** The fallback forecast, further *)

Module FallbackFacts.
Import JS JSFacts Samples ProfessionalDashboard ForecastFacts.
Local Open Scope Q_scope.



(** X9: when the base prediction carries no bill, the fallback
    forecast shows [NaN] for the bill and for the daily cost, whatever
    the horizon, while the handler still stores it. *)
Theorem fallback_without_bill_shows_NaN
    (baseData : Forecast.t) (backend : Backend) (period : string)
    (st : State) :
  Forecast.bill baseData = None ->
  (forall data, backend period <> Resolved true (Some data)) ->
  exists f,
    forecastData
      (handlePredictionPeriodChange (Some baseData) backend period st)
    = Some f /\
    bill_total_amount f = PStr DNaN /\
    Forecast.daily_avg_cost f = PStr DNaN /\
    show DNaN = "NaN"%string.
Proof.
  intros Hbill Hno. exists (fallbackData baseData period).
  split.
  - unfold handlePredictionPeriodChange.
    destruct (backend period) as [|[|] [data|]]; try reflexivity.
    exfalso. exact (Hno data eq_refl).
  - unfold fallbackData, bill_total_amount.
    cbn [Forecast.bill Bill.total_amount Forecast.daily_avg_cost].
    rewrite Hbill. repeat split.
Qed.

Lemma fallback_without_bill_shows_NaN_witness :
  exists f,
    forecastData
      (handlePredictionPeriodChange
         (Some {| Forecast.predicted_kwh := PNum (Num 120);
                  Forecast.bill := None;
                  Forecast.daily_avg_kwh := Undefined;
                  Forecast.daily_avg_cost := Undefined;
                  Forecast.prediction_period_days := Undefined;
                  Forecast.confidence := None |})
         offline "60" idle)
    = Some f /\
    bill_total_amount f = PStr DNaN /\
    Forecast.daily_avg_cost f = PStr DNaN /\
    show DNaN = "NaN"%string.
Proof.
  apply fallback_without_bill_shows_NaN.
  - reflexivity.
  - intros data H. discriminate H.
Defined.

(** X10: what a change of the period leaves behind.  The period chosen
    is selected and the loading flag is down; a forecast the service
    gave is stored as it came, whatever the base prediction; and no
    forecast at all is stored exactly when the service gave none and
    there is no base prediction to estimate from. *)
Theorem forecast_after_period_change
    (baseData : option Forecast.t) (backend : Backend) (period : string)
    (st : State) :
  let st' := handlePredictionPeriodChange baseData backend period st in
  selectedPredictionPeriod st' = period /\
  isLoadingForecast st' = false /\
  (forall data,
      backend period = Resolved true (Some data) ->
      forecastData st' = Some data) /\
  (forecastData st' = None <->
   baseData = None /\
   forall data, backend period <> Resolved true (Some data)).
Proof.
  unfold handlePredictionPeriodChange.
  destruct (backend period) as [|[|] [data|]] eqn:Eb;
    destruct baseData as [b|];
    cbn [useFallback setForecastData selectedPredictionPeriod
         forecastData isLoadingForecast].
  all: split; [reflexivity|]; split; [reflexivity|]; split.
  all: try (intros d H; first [discriminate H
                              | injection H as <-; reflexivity]).
  all: split.
  all: try (intro H; discriminate H).
  all: try (intros [H1 H2]; discriminate H1).
  all: try (intros _; split; [reflexivity | intros d E; discriminate E]).
  all: try (intros _; reflexivity).
  intros [_ H2]. exfalso. exact (H2 data eq_refl).
Qed.

(** X11: for a base energy that is not negative, a longer horizon never
    gives a smaller fallback prediction. *)
Theorem fallback_grows_with_horizon
    (baseData : Forecast.t) (period1 period2 : string) (p d1 d2 : Q) :
  ToNumber (Forecast.predicted_kwh baseData) = Num p -> 0 <= p ->
  parseInt period1 = Num d1 -> parseInt period2 = Num d2 ->
  0 <= d1 -> d1 <= d2 ->
  (ToNumber (Forecast.predicted_kwh (fallbackData baseData period1))
   <=? ToNumber (Forecast.predicted_kwh (fallbackData baseData period2)))%js
  = true.
Proof.
  intros Hp Hp0 H1 H2 Hd1 Hd12. unfold fallbackData.
  cbn [Forecast.predicted_kwh ToNumber].
  rewrite Hp, H1, H2, !scaled_by_period.
  apply toFixed_mono.
  - apply Qmult_le_0_compat; [exact Hp0|].
    apply Qle_shift_div_l; lra.
  - assert (Hd : d1 / 30 <= d2 / 30).
    { unfold Qdiv. apply Qmult_le_compat_r; [exact Hd12|].
      apply Qlt_le_weak, Qinv_lt_0_compat. lra. }
    rewrite (Qmult_comm p (d1 / 30)), (Qmult_comm p (d2 / 30)).
    apply Qmult_le_compat_r; assumption.
Qed.

Lemma fallback_grows_with_horizon_witness :
  (ToNumber (Forecast.predicted_kwh
               (fallbackData (baseForecast 123.45 617.25) "15"))
   <=? ToNumber (Forecast.predicted_kwh
                   (fallbackData (baseForecast 123.45 617.25) "45")))%js
  = true.
Proof.
  apply (@fallback_grows_with_horizon
           (baseForecast 123.45 617.25) "15" "45" 123.45 15 45);
    try reflexivity; unfold Qle; simpl; lia.
Defined.

End FallbackFacts.

(** ** The chat tools, further *)

Module MoreToolsFacts.
Import JS JSFacts Samples AgentTools MoreTools.

(** X12: a request that succeeds under one timeout succeeds with the
    same body under every longer one. *)
Theorem fetchJSON_longer_timeout
    (net : Network) (url : string) (t1 t2 : N) (data : JS.json) :
  (t1 <= t2)%N ->
  fetchJSON net url (Some t1) = Ok data ->
  fetchJSON net url (Some t2) = Ok data.
Proof.
  intros Hle. unfold fetchJSON.
  destruct (net url) as [ | after message | after res].
  - intro H. discriminate H.
  - destruct (after <? t1)%N; intro H; discriminate H.
  - destruct (after <? t1)%N eqn:H1; [|intro H; discriminate H].
    apply N.ltb_lt in H1.
    assert (H2 : (after <? t2)%N = true) by (apply N.ltb_lt; lia).
    rewrite H2. auto.
Qed.

Lemma fetchJSON_longer_timeout_witness :
  fetchJSON (answering 4000 sunny) "http://localhost:5000/api/peak"
            (Some 10000%N) = Ok sunny.
Proof.
  apply (@fetchJSON_longer_timeout (answering 4000 sunny) _ 5000 10000 sunny).
  - vm_compute. discriminate.
  - reflexivity.
Defined.

Lemma append_assoc (a b c : string) :
  ((a ++ b) ++ c = a ++ b ++ c)%string.
Proof. induction a as [|x a IH]; cbn; [reflexivity | now rewrite IH]. Qed.

Lemma append_cancel (a b c : string) :
  (a ++ b = a ++ c)%string -> b = c.
Proof.
  induction a as [|x a IH]; cbn; intro H; [exact H|].
  injection H as H. exact (IH H).
Qed.

Lemma fetch_answer_or_error (net : Network) (url prefix : string) :
  answer_or_error net url prefix
    match fetchJSON net url None with
    | Ok data => data
    | Throw message => errorObject (prefix ++ message)%string
    end.
Proof.
  unfold answer_or_error, fetchJSON.
  destruct (net url) as [ | after message | after res].
  - right. eexists. reflexivity.
  - destruct (after <? 10000)%N; right; eexists; reflexivity.
  - destruct (after <? 10000)%N eqn:Hlt; [|right; eexists; reflexivity].
    destruct (ok res) eqn:Hok; cbn [negb]; [|right; eexists; reflexivity].
    destruct (AgentTools.json res) as [data | message] eqn:Hjson.
    + left. exists after, res. apply N.ltb_lt in Hlt. auto.
    + right. eexists. reflexivity.
Qed.

(** X13: every other chat tool degrades as the weather lookup does:
    what it hands back is the body of an [ok] answer that came within
    the default 10000 ms, or the object tagged [error] with the message
    of that tool; nothing is thrown to the caller. *)
Theorem tools_degrade (net : Network) (base : string)
    (days : option Z) (deviceName : string) :
  answer_or_error net (base ++ "/peak")
    "Failed to fetch energy usage summary: "
    (getEnergyUsageSummary_execute net base tt) /\
  answer_or_error net (base ++ "/devices")
    "Failed to fetch device consumption data: "
    (getDeviceConsumptionData_execute net base tt) /\
  answer_or_error net
    (predictUrl base match days with Some d => d | None => 30%Z end)
    "Failed to fetch predicted bill and tariff data: "
    (getPredictedBillAndTariff_execute net base days) /\
  answer_or_error net (deviceUrl base deviceName)
    ("Failed to fetch details for " ++ deviceName ++ ": ")
    (getSpecificDeviceDetails_execute net base deviceName) /\
  answer_or_error net (base ++ "/suggestions")
    "Failed to fetch general energy suggestions: "
    (getGeneralEnergySuggestions_execute net base tt).
Proof.
  repeat split; try apply fetch_answer_or_error.
  assert (E : getSpecificDeviceDetails_execute net base deviceName =
              match fetchJSON net (deviceUrl base deviceName) None with
              | Ok data => data
              | Throw message =>
                  errorObject
                    (("Failed to fetch details for " ++ deviceName ++ ": ")
                     ++ message)%string
              end).
  { unfold getSpecificDeviceDetails_execute.
    destruct (fetchJSON net (deviceUrl base deviceName) None);
      [reflexivity|].
    now rewrite !append_assoc. }
  rewrite E. apply fetch_answer_or_error.
Qed.

(** *** The name in the URL *)






Example name_is_one_segment_sample :
  deviceUrl (API_BASE None) "Washing Machine/../x?y"
  = "http://localhost:5000/api/device/Washing%20Machine%2F..%2Fx%3Fy".
Proof. reflexivity. Qed.

Lemma hex_char_inj (d1 d2 : nat) :
  (d1 < 16)%nat -> (d2 < 16)%nat -> hex_char d1 = hex_char d2 -> d1 = d2.
Proof.
  intros H1 H2 H. apply (f_equal nat_of_ascii) in H. unfold hex_char in H.
  destruct (d1 <? 10)%nat eqn:E1, (d2 <? 10)%nat eqn:E2;
    rewrite !nat_ascii_embedding in H by lia;
    try apply Nat.ltb_lt in E1; try apply Nat.ltb_lt in E2;
    try apply Nat.ltb_ge in E1; try apply Nat.ltb_ge in E2; lia.
Qed.

Lemma percent_reserved (c : ascii) : unreserved c = true -> c <> "%"%char.
Proof. intros H E. subst c. discriminate H. Qed.

Lemma encode_unreserved (c : ascii) (r : string) :
  unreserved c = true ->
  encodeURIComponent (String c r) = String c (encodeURIComponent r).
Proof. intro H. cbn [encodeURIComponent]. now rewrite H. Qed.

Lemma encode_reserved (c : ascii) (r : string) :
  unreserved c = false ->
  encodeURIComponent (String c r) =
  String "%" (String (hex_char (Nat.div (nat_of_ascii c) 16))
                (String (hex_char (Nat.modulo (nat_of_ascii c) 16))
                   (encodeURIComponent r))).
Proof. intro H. cbn [encodeURIComponent]. now rewrite H. Qed.

Lemma encode_head_inj (c1 c2 : ascii) (r1 r2 : string) :
  encodeURIComponent (String c1 r1) = encodeURIComponent (String c2 r2) ->
  c1 = c2 /\ encodeURIComponent r1 = encodeURIComponent r2.
Proof.
  destruct (unreserved c1) eqn:U1, (unreserved c2) eqn:U2; intro H.
  all: first [rewrite (@encode_unreserved c1 r1 U1) in H
             | rewrite (@encode_reserved c1 r1 U1) in H].
  all: first [rewrite (@encode_unreserved c2 r2 U2) in H
             | rewrite (@encode_reserved c2 r2 U2) in H].
  - injection H as -> H. auto.
  - injection H as E _. contradiction (percent_reserved U1 E).
  - injection H as E _. symmetry in E. contradiction (percent_reserved U2 E).
  - assert (Hh : hex_char (Nat.div (nat_of_ascii c1) 16)
                 = hex_char (Nat.div (nat_of_ascii c2) 16)) by congruence.
    assert (Hl : hex_char (Nat.modulo (nat_of_ascii c1) 16)
                 = hex_char (Nat.modulo (nat_of_ascii c2) 16)) by congruence.
    split; [|congruence].
    pose proof (nat_ascii_bounded c1) as B1.
    pose proof (nat_ascii_bounded c2) as B2.
    apply hex_char_inj in Hh;
      [ | apply Nat.Div0.div_lt_upper_bound; lia
        | apply Nat.Div0.div_lt_upper_bound; lia ].
    apply hex_char_inj in Hl; [ | apply Nat.mod_upper_bound; lia
                                | apply Nat.mod_upper_bound; lia ].
    assert (E : nat_of_ascii c1 = nat_of_ascii c2).
    { rewrite (Nat.div_mod_eq (nat_of_ascii c1) 16),
              (Nat.div_mod_eq (nat_of_ascii c2) 16), Hh, Hl. reflexivity. }
    rewrite <- (ascii_nat_embedding c1), <- (ascii_nat_embedding c2), E.
    reflexivity.
Qed.

Lemma encode_inj (s1 s2 : string) :
  encodeURIComponent s1 = encodeURIComponent s2 -> s1 = s2.
Proof.
  revert s2. induction s1 as [|c1 r1 IH]; intros [|c2 r2] H.
  - reflexivity.
  - cbn [encodeURIComponent] in H. destruct (unreserved c2); discriminate H.
  - cbn [encodeURIComponent] in H. destruct (unreserved c1); discriminate H.
  - apply encode_head_inj in H. destruct H as [-> H].
    f_equal. exact (IH _ H).
Qed.

(** X15: two names never share a URL: the URL of the details of a
    device and the URL of the weather of a city determine the name. *)
Theorem url_determines_name (base name1 name2 : string) :
  deviceUrl base name1 = deviceUrl base name2 \/
  weatherUrl base name1 = weatherUrl base name2 ->
  name1 = name2.
Proof.
  unfold deviceUrl, weatherUrl. intros [H | H];
    apply append_cancel, append_cancel in H; exact (encode_inj _ _ H).
Qed.

Lemma url_determines_name_witness : "AC/DC" = "AC/DC".
Proof.
  apply (@url_determines_name (API_BASE None) "AC/DC" "AC/DC").
  left. reflexivity.
Defined.

(** X16: the details of a device are asked for exactly when the input
    has a [deviceName] that is a string and not the empty one, and then
    with that very name; a missing name, the empty name and any other
    value are refused. *)
Theorem device_name_required
    (net : Network) (base : string) (fields : list (string * JS.json)) :
  let call := getSpecificDeviceDetails net base (JObject fields) in
  (forall name,
      lookup "deviceName" fields = Some (JString name) -> name <> "" ->
      call = Executed (getSpecificDeviceDetails_execute net base name)) /\
  ((forall name, lookup "deviceName" fields = Some (JString name) ->
                 name = "") ->
   exists issue, call = InvalidToolInput issue).
Proof.
  unfold getSpecificDeviceDetails, callTool,
    getSpecificDeviceDetails_inputSchema, z_object, z_min_length, z_string.
  cbn zeta. split.
  - intros name H Hne. rewrite H.
    destruct name as [|c r]; [contradiction Hne; reflexivity|]. reflexivity.
  - intro Hall.
    destruct (lookup "deviceName" fields) as [[ | b | q | s | items | members]|];
      try (eexists; reflexivity).
    rewrite (Hall s eq_refl). eexists. reflexivity.
Qed.

Lemma device_name_required_witness :
  getSpecificDeviceDetails (answering 5 sunny) (API_BASE None)
    (JObject [("deviceName", JString "Fridge")])
  = Executed (getSpecificDeviceDetails_execute (answering 5 sunny)
                (API_BASE None) "Fridge").
Proof.
  apply (proj1 (@device_name_required (answering 5 sunny) (API_BASE None)
                  [("deviceName", JString "Fridge")])).
  - reflexivity.
  - discriminate.
Defined.

End MoreToolsFacts.

(** ** Loading the dashboard *)

Module PageFacts.
Import JS Samples SmartEnergyDashboard.

(** The [try] block stores a snapshot and a device map, and nothing
    else. *)
Lemma loadAll_frame (backend : Backend) (st : State) :
  connection (loadAll backend st) = connection st /\
  energyData (loadAll backend st) = energyData st /\
  isLoading (loadAll backend st) = isLoading st.
Proof.
  unfold loadAll.
  destruct (backend "/peak") as [|ok0 b0]; [auto|].
  destruct (backend "/predict") as [|ok1 b1]; [auto|].
  destruct (backend "/suggestions") as [|ok2 b2]; [auto|].
  destruct (backend "/devices") as [|ok3 b3]; [auto|].
  destruct (bodyOrNull ok0 b0); [|auto].
  destruct (bodyOrNull ok1 b1); [|auto].
  destruct (bodyOrNull ok2 b2); [|auto].
  destruct (bodyOrNull ok3 b3) as [[devices|]|]; [|auto|auto].
  destruct (json_truthy devices); auto.
Qed.

(** Loading stores neither readings nor a connection. *)
Lemma loadDashboardData_frame (backend : Backend) (st : State) :
  energyData (loadDashboardData backend st) = energyData st /\
  connection (loadDashboardData backend st) = connection st.
Proof.
  unfold loadDashboardData.
  destruct (isConnected (connection st)); cbn [negb]; [|auto].
  destruct (loadAll_frame backend (setIsLoading st true)) as (H1 & H2 & _).
  cbn [setIsLoading energyData connection isLoading].
  rewrite H1, H2. auto.
Qed.

(** The readings an upload hands over are the readings afterwards. *)
Lemma handleDataUpload_energyData
    (backend : Backend) (data : json) (st : State) :
  energyData (handleDataUpload backend data st) = data.
Proof.
  unfold handleDataUpload.
  destruct (loadDashboardData_frame backend (setEnergyData st data))
    as (H & _).
  rewrite H. reflexivity.
Qed.

(** X17: loading the dashboard never touches the readings or the
    connection; on a page that is not connected it does nothing at
    all, and on a connected page it ends with the loading flag down. *)
Theorem load_keeps_readings (backend : Backend) (st : State) :
  let st' := loadDashboardData backend st in
  energyData st' = energyData st /\
  connection st' = connection st /\
  (if isConnected (connection st) then isLoading st' = false else st' = st).
Proof.
  cbn zeta.
  destruct (loadDashboardData_frame backend st) as (H1 & H2).
  split; [exact H1|]. split; [exact H2|].
  unfold loadDashboardData.
  destruct (isConnected (connection st)); reflexivity.
Qed.

(** X18: when one of the four requests rejects, or the body of an [ok]
    answer cannot be read, the snapshot and the device map stay as
    they were: nothing of the other three answers is stored. *)
Theorem failed_load_keeps_snapshot
    (backend : Backend) (st : State) (endpoint : string) :
  In endpoint Endpoints.all ->
  (backend endpoint = Rejected \/
   exists message, backend endpoint = Resolved true (Throw message)) ->
  dashboardData (loadDashboardData backend st) = dashboardData st /\
  deviceData (loadDashboardData backend st) = deviceData st.
Proof.
  intros Hin Hfail. unfold loadDashboardData.
  destruct (isConnected (connection st)); cbn [negb]; [|auto].
  cbn [setIsLoading dashboardData deviceData].
  assert (E : loadAll backend (setIsLoading st true) = setIsLoading st true).
  { unfold loadAll.
    destruct (backend "/peak") as [|ok0 b0] eqn:E0; [reflexivity|].
    destruct (backend "/predict") as [|ok1 b1] eqn:E1; [reflexivity|].
    destruct (backend "/suggestions") as [|ok2 b2] eqn:E2; [reflexivity|].
    destruct (backend "/devices") as [|ok3 b3] eqn:E3; [reflexivity|].
    cbn [Endpoints.all In] in Hin.
    destruct Hin as [<- | [<- | [<- | [<- | []]]]];
      destruct Hfail as [Hf | (m & Hf)];
      first [ congruence | idtac ].
    - rewrite E0 in Hf. injection Hf as -> ->. reflexivity.
    - rewrite E1 in Hf. injection Hf as -> ->.
      cbn [bodyOrNull]. destruct (bodyOrNull ok0 b0); reflexivity.
    - rewrite E2 in Hf. injection Hf as -> ->.
      cbn [bodyOrNull].
      destruct (bodyOrNull ok0 b0); [|reflexivity].
      destruct (bodyOrNull ok1 b1); reflexivity.
    - rewrite E3 in Hf. injection Hf as -> ->.
      cbn [bodyOrNull].
      destruct (bodyOrNull ok0 b0); [|reflexivity].
      destruct (bodyOrNull ok1 b1); [|reflexivity].
      destruct (bodyOrNull ok2 b2); reflexivity. }
  rewrite E. auto.
Qed.

Lemma failed_load_keeps_snapshot_witness :
  let backend e :=
    if String.eqb e "/suggestions" then Rejected
    else Resolved true (Ok (JObject [])) in
  dashboardData (loadDashboardData backend loaded) = dashboardData loaded /\
  deviceData (loadDashboardData backend loaded) = deviceData loaded.
Proof.
  apply (@failed_load_keeps_snapshot
           (fun e => if String.eqb e "/suggestions" then Rejected
                     else Resolved true (Ok (JObject [])))
           loaded "/suggestions").
  - cbn. auto.
  - left. reflexivity.
Defined.

(** X19: when the four requests all resolve and none is [ok], the
    snapshot is replaced by an empty one (no peak, no prediction, no
    suggestions) whatever it held before, while the device map is
    kept. *)
Theorem unavailable_endpoints_blank_snapshot
    (backend : Backend) (st : State) :
  isConnected (connection st) = true ->
  (forall endpoint, In endpoint Endpoints.all ->
                    exists body, backend endpoint = Resolved false body) ->
  dashboardData (loadDashboardData backend st) =
    Some {| DashboardData.peak := None;
            DashboardData.prediction := None;
            DashboardData.suggestions := JArray [] |} /\
  deviceData (loadDashboardData backend st) = deviceData st.
Proof.
  intros Hc Hall. unfold loadDashboardData. rewrite Hc. cbn [negb].
  unfold loadAll.
  destruct (Hall "/peak") as (b0 & ->); [cbn; auto|].
  destruct (Hall "/predict") as (b1 & ->); [cbn; auto|].
  destruct (Hall "/suggestions") as (b2 & ->); [cbn; auto|].
  destruct (Hall "/devices") as (b3 & ->); [cbn; auto 6|].
  cbn. auto.
Qed.

Lemma unavailable_endpoints_blank_snapshot_witness :
  let backend (_ : string) := Resolved false (Throw "no body") in
  dashboardData (loadDashboardData backend loaded) =
    Some {| DashboardData.peak := None;
            DashboardData.prediction := None;
            DashboardData.suggestions := JArray [] |} /\
  deviceData (loadDashboardData backend loaded) = deviceData loaded.
Proof.
  apply (@unavailable_endpoints_blank_snapshot
           (fun _ => Resolved false (Throw "no body")) loaded).
  - reflexivity.
  - intros endpoint _. eexists. reflexivity.
Defined.

(** X20: loading twice from the same answers is loading once. *)
Theorem load_is_idempotent (backend : Backend) (st : State) :
  loadDashboardData backend (loadDashboardData backend st)
  = loadDashboardData backend st.
Proof.
  unfold loadDashboardData.
  destruct (isConnected (connection st)) eqn:Hc; cbn [negb];
    [|rewrite Hc; reflexivity].
  destruct (loadAll_frame backend (setIsLoading st true)) as (H1 & _ & _).
  cbn [setIsLoading connection]. rewrite H1.
  change (connection (setIsLoading st true)) with (connection st).
  rewrite Hc. cbn [negb].
  unfold loadAll.
  destruct (backend "/peak") as [|ok0 b0]; [reflexivity|].
  destruct (backend "/predict") as [|ok1 b1]; [reflexivity|].
  destruct (backend "/suggestions") as [|ok2 b2]; [reflexivity|].
  destruct (backend "/devices") as [|ok3 b3]; [reflexivity|].
  destruct (bodyOrNull ok0 b0); [|reflexivity].
  destruct (bodyOrNull ok1 b1); [|reflexivity].
  destruct (bodyOrNull ok2 b2); [|reflexivity].
  destruct (bodyOrNull ok3 b3) as [[devices|]|]; [|reflexivity|reflexivity].
  destruct (json_truthy devices); reflexivity.
Qed.

(** X21: an upload handed to the page replaces the readings by the
    uploaded ones whatever the endpoints answer, and does to the rest
    of the state what loading the dashboard does. *)
Theorem upload_replaces_readings
    (backend : Backend) (data : json) (st : State) :
  handleDataUpload backend data st
    = setEnergyData (loadDashboardData backend st) data /\
  energyData (handleDataUpload backend data st) = data.
Proof.
  assert (E : handleDataUpload backend data st
              = setEnergyData (loadDashboardData backend st) data).
  { unfold handleDataUpload, loadDashboardData.
    cbn [setEnergyData connection].
    destruct (isConnected (connection st)); cbn [negb]; [|reflexivity].
    unfold loadAll.
    destruct (backend "/peak") as [|ok0 b0]; [reflexivity|].
    destruct (backend "/predict") as [|ok1 b1]; [reflexivity|].
    destruct (backend "/suggestions") as [|ok2 b2]; [reflexivity|].
    destruct (backend "/devices") as [|ok3 b3]; [reflexivity|].
    destruct (bodyOrNull ok0 b0); [|reflexivity].
    destruct (bodyOrNull ok1 b1); [|reflexivity].
    destruct (bodyOrNull ok2 b2); [|reflexivity].
    destruct (bodyOrNull ok3 b3) as [[devices|]|]; [|reflexivity|reflexivity].
    destruct (json_truthy devices); reflexivity. }
  split; [exact E | apply handleDataUpload_energyData].
Qed.

End PageFacts.

(** ** The upload, further *)

Module UploadFacts.
Import JS Samples DataUpload.

(** What a successful upload has done to the parent. *)
Lemma handleFile_published
    (App : Type) (connected : bool)
    (onDataUpload : json -> App -> App) (onDataLoaded : App -> App)
    (JSON_parse : string -> result json) (upload : json -> Fetched)
    (file : File) (status0 : UploadStatus) (app : App) :
  type (fst (handleFile connected onDataUpload onDataLoaded JSON_parse
               upload file (status0, app))) = Some success ->
  exists data,
    JSON_parse (text file) = Ok data /\ isArray data = true /\
    snd (handleFile connected onDataUpload onDataLoaded JSON_parse
           upload file (status0, app))
    = onDataLoaded (onDataUpload data app).
Proof.
  unfold handleFile. cbn [snd].
  destruct (endsWith (name file) ".json"); cbn [negb fst type failed];
    [|discriminate].
  destruct connected; cbn [negb fst type failed]; [|discriminate].
  destruct (JSON_parse (text file)) as [data | msg]; cbn [fst type failed];
    [|discriminate].
  destruct (isArray data) eqn:Harr; cbn [negb andb fst type failed];
    [|discriminate].
  destruct (upload data) as [msg | [|] [result | msg]];
    cbn [andb fst type failed]; try discriminate.
  destruct (UploadResult.status result) as [s|]; cbn [fst type failed];
    [|discriminate].
  destruct (String.eqb s "success"); cbn [fst snd type failed];
    [|discriminate].
  intros _. exists data. auto.
Qed.

(** X22: an upload ends with the status [success] exactly when the
    name of the file ends in [.json], the page is connected, the text
    parses to an array and the service answers [ok] with the status
    [success]; the parent then gets the parsed array through
    [onDataUpload] and after that [onDataLoaded]. *)
Theorem upload_succeeds_iff
    (App : Type) (connected : bool)
    (onDataUpload : json -> App -> App) (onDataLoaded : App -> App)
    (JSON_parse : string -> result json) (upload : json -> Fetched)
    (file : File) (status0 : UploadStatus) (app : App) :
  let final :=
    handleFile connected onDataUpload onDataLoaded JSON_parse upload file
               (status0, app) in
  (type (fst final) = Some success <->
   endsWith (name file) ".json" = true /\ connected = true /\
   accepted JSON_parse upload file = true) /\
  (type (fst final) = Some success ->
   exists data,
     JSON_parse (text file) = Ok data /\ isArray data = true /\
     snd final = onDataLoaded (onDataUpload data app)).
Proof.
  intro final. subst final. unfold handleFile, accepted. cbn [snd].
  destruct (endsWith (name file) ".json"); cbn [negb fst type failed];
    [|split; [split; [discriminate | intros (H & _); discriminate H]
             | discriminate]].
  destruct connected; cbn [negb fst type failed];
    [|split; [split; [discriminate | intros (_ & H & _); discriminate H]
             | discriminate]].
  destruct (JSON_parse (text file)) as [data | msg]; cbn [fst type failed];
    [|split; [split; [discriminate | intros (_ & _ & H); discriminate H]
             | discriminate]].
  destruct (isArray data) eqn:Harr; cbn [negb andb fst type failed];
    [|split; [split; [discriminate | intros (_ & _ & H); discriminate H]
             | discriminate]].
  destruct (upload data) as [msg | ok [result | msg]]; cbn [fst type failed];
    try (split; [split; [discriminate | intros (_ & _ & H); discriminate H]
                | discriminate]).
  - destruct ok; cbn [andb fst type failed];
      [|split; [split; [discriminate | intros (_ & _ & H); discriminate H]
               | discriminate]].
    destruct (UploadResult.status result) as [s|]; cbn [fst type failed];
      [|split; [split; [discriminate | intros (_ & _ & H); discriminate H]
               | discriminate]].
    destruct (String.eqb s "success"); cbn [fst snd type failed].
    + split; [split; auto|]. intros _. exists data. auto.
    + split; [split; [discriminate | intros (_ & _ & H); discriminate H]
             | discriminate].
  - destruct ok; split;
      try (split; [discriminate | intros (_ & _ & H); discriminate H]);
      discriminate.
Qed.

Lemma upload_succeeds_iff_witness :
  exists data,
    parseSample "[]" = Ok data /\ isArray data = true /\
    snd (mounted serving parseSample taking
           {| name := "readings.json"; text := "[]" |} (noStatus, loaded))
    = SmartEnergyDashboard.loadDashboardData serving
        (SmartEnergyDashboard.handleDataUpload serving data loaded).
Proof.
  apply (proj2 (@upload_succeeds_iff
                  SmartEnergyDashboard.State true
                  (SmartEnergyDashboard.handleDataUpload serving)
                  (SmartEnergyDashboard.loadDashboardData serving)
                  parseSample taking
                  {| name := "readings.json"; text := "[]" |}
                  noStatus loaded)).
  reflexivity.
Defined.

(** X23: on the page, an upload that succeeds leaves the parsed array
    as the readings, whatever the read endpoints answer afterwards. *)
Theorem accepted_upload_publishes_readings
    (backend : SmartEnergyDashboard.Backend)
    (JSON_parse : string -> result json) (upload : json -> Fetched)
    (file : File) (status0 : UploadStatus)
    (page : SmartEnergyDashboard.State) :
  let final := mounted backend JSON_parse upload file (status0, page) in
  type (fst final) = Some success ->
  exists data,
    JSON_parse (text file) = Ok data /\ isArray data = true /\
    SmartEnergyDashboard.energyData (snd final) = data.
Proof.
  intros final Hs. subst final. unfold mounted in *.
  apply handleFile_published in Hs. destruct Hs as (data & Hp & Harr & Heq).
  exists data. split; [exact Hp|]. split; [exact Harr|].
  rewrite Heq.
  destruct (PageFacts.loadDashboardData_frame backend
              (SmartEnergyDashboard.handleDataUpload backend data page))
    as (H & _).
  rewrite H. apply PageFacts.handleDataUpload_energyData.
Qed.

Lemma accepted_upload_publishes_readings_witness :
  exists data,
    parseSample "[]" = Ok data /\ isArray data = true /\
    SmartEnergyDashboard.energyData
      (snd (mounted serving parseSample taking
              {| name := "readings.json"; text := "[]" |}
              (noStatus, loaded))) = data.
Proof.
  apply (@accepted_upload_publishes_readings serving parseSample taking
           {| name := "readings.json"; text := "[]" |} noStatus loaded).
  reflexivity.
Defined.

End UploadFacts.

(** ** The bars of the threshold overview *)

Module ThresholdFacts.
Import JS JSFacts DeviceThresholdOverview.
Local Open Scope Q_scope.


Lemma percent_of (c t : Q) :
  0 < t -> (Num c / Num t * Num 100)%js = Num (c / t * 100).
Proof. intro Ht. cbn [div mul]. now rewrite (sgn_pos Ht). Qed.

(** X24: against a positive threshold, the bar of a reading that is
    not negative is a number from 0 to 100, whatever the type of the
    threshold. *)
Theorem progress_within_bar (c t : Q) (type : string) :
  0 <= c -> 0 < t ->
  exists v, getProgressValue (Num c) (Num t) type = Num v /\
            0 <= v /\ v <= 100.
Proof.
  intros Hc Ht. unfold getProgressValue.
  assert (Hx : 0 <= c / t * 100).
  { apply Qmult_le_0_compat; [|lra]. apply Qle_shift_div_l; lra. }
  rewrite !(percent_of _ Ht).
  destruct (String.eqb type "greater_than").
  - cbn [Math_min leb].
    destruct (Qle_bool (c / t * 100) 100) eqn:E.
    + apply Qle_bool_iff in E. eexists. split; [reflexivity|]. lra.
    + eexists. split; [reflexivity|]. lra.
  - destruct (String.eqb type "less_than").
    + cbn [sub add neg Math_max leb].
      destruct (Qle_bool (100 + - (c / t * 100)) 0) eqn:E.
      * eexists. split; [reflexivity|]. lra.
      * apply Qle_bool_false in E. eexists. split; [reflexivity|]. lra.
    + exists 50. split; [reflexivity|]. lra.
Qed.

Lemma progress_within_bar_witness :
  exists v, getProgressValue (Num 1500) (Num 1200) "greater_than" = Num v /\
            0 <= v /\ v <= 100.
Proof.
  apply (@progress_within_bar 1500 1200 "greater_than");
    unfold Qle, Qlt; simpl; lia.
Defined.





End ThresholdFacts.

(** ** The figures of the analytics page *)

Module AnalyticsFacts.
Import JS JSFacts Analytics.
Local Open Scope Q_scope.

(** A number that is not [NaN] falls in exactly one efficiency class. *)
Lemma one_class (x : number) :
  x <> NaN ->
  let high := geb x (Num 90) in
  let moderate := geb x (Num 80) && ltb x (Num 90) in
  let low := ltb x (Num 80) in
  (high = true /\ moderate = false /\ low = false)
  \/ (high = false /\ moderate = true /\ low = false)
  \/ (high = false /\ moderate = false /\ low = true).
Proof.
  intros Hx. destruct x as [| |q|]; [congruence| | |].
  - right. right. repeat split.
  - cbn -[Qle_bool]. unfold geb, ltb, gtb, leb.
    destruct (Qle_bool 90 q) eqn:E90; destruct (Qle_bool 80 q) eqn:E80;
      cbn [negb andb].
    + left. repeat split.
    + apply Qle_bool_iff in E90. apply Qle_bool_false in E80. lra.
    + right. left. repeat split.
    + right. right. repeat split.
  - left. repeat split.
Qed.

Lemma active_le_total (deviceEntries : Entries) :
  (activeDevices deviceEntries <= totalDevices deviceEntries)%nat.
Proof. unfold activeDevices, totalDevices. apply filter_length_le. Qed.

(** X27: as long as no efficiency is [NaN], the three lists of names
    under Cost Optimization Opportunities (high, moderate, needs
    attention) together hold every device exactly once. *)
Theorem efficiency_classes_partition (deviceEntries : Entries) :
  (forall name data,
      In (name, data) deviceEntries -> Device.efficiency data <> NaN) ->
  Permutation
    (highEfficiency deviceEntries ++ moderateEfficiency deviceEntries
     ++ needsAttention deviceEntries)
    (map fst deviceEntries).
Proof.
  unfold highEfficiency, moderateEfficiency, needsAttention.
  induction deviceEntries as [|[name data] rest IH]; intros Hnum.
  - constructor.
  - assert (Hrest : forall n d, In (n, d) rest -> Device.efficiency d <> NaN)
      by (intros n d Hin; apply (Hnum n d); now right).
    specialize (IH Hrest).
    assert (Hd : Device.efficiency data <> NaN)
      by (apply (Hnum name); now left).
    cbn [filter map fst snd].
    destruct (one_class Hd) as [(-> & -> & ->) | [(-> & -> & ->) | (-> & -> & ->)]];
      cbn [map fst app].
    + now constructor.
    + apply Permutation_sym, Permutation_cons_app, Permutation_sym, IH.
    + rewrite app_assoc.
      apply Permutation_sym, Permutation_cons_app, Permutation_sym.
      rewrite <- app_assoc. exact IH.
Qed.

Lemma efficiency_classes_partition_witness :
  Permutation
    (highEfficiency
       [("Fan", {| Device.currentPower := Num 0; Device.totalEnergy := Num 1;
                   Device.efficiency := Num 85 |});
        ("AC", {| Device.currentPower := Num 900; Device.totalEnergy := Num 4;
                  Device.efficiency := Num 92 |})]
     ++ moderateEfficiency
       [("Fan", {| Device.currentPower := Num 0; Device.totalEnergy := Num 1;
                   Device.efficiency := Num 85 |});
        ("AC", {| Device.currentPower := Num 900; Device.totalEnergy := Num 4;
                  Device.efficiency := Num 92 |})]
     ++ needsAttention
       [("Fan", {| Device.currentPower := Num 0; Device.totalEnergy := Num 1;
                   Device.efficiency := Num 85 |});
        ("AC", {| Device.currentPower := Num 900; Device.totalEnergy := Num 4;
                  Device.efficiency := Num 92 |})])
    ["Fan"; "AC"].
Proof.
  apply (@efficiency_classes_partition
           [("Fan", {| Device.currentPower := Num 0;
                       Device.totalEnergy := Num 1;
                       Device.efficiency := Num 85 |});
            ("AC", {| Device.currentPower := Num 900;
                      Device.totalEnergy := Num 4;
                      Device.efficiency := Num 92 |})]).
  intros name data [E | [E | []]]; injection E as _ <-; discriminate.
Defined.

(** X28: the Device Utilization metric is always a number between 0 and
    100, and it is 0 when no device draws power, in particular when
    there is no device at all (where the quotient is 0/0). *)
Theorem utilization_is_a_percentage (deviceEntries : Entries) :
  exists v,
    deviceUtilization deviceEntries = Num v /\ 0 <= v <= 100 /\
    (activeDevices deviceEntries = 0%nat -> v == 0).
Proof.
  unfold deviceUtilization, of_length.
  pose proof (active_le_total deviceEntries) as Hle.
  set (a := activeDevices deviceEntries) in *.
  set (t := totalDevices deviceEntries) in *.
  destruct t as [|t'] eqn:Et.
  - assert (a = 0%nat) as -> by lia. exists 0. cbn. repeat split; lra.
  - set (qa := inject_Z (Z.of_nat a)).
    set (qt := inject_Z (Z.of_nat (S t'))).
    assert (Hqt : 0 < qt).
    { unfold qt. change 0 with (inject_Z 0). rewrite <- Zlt_Qlt. lia. }
    assert (Hqa : 0 <= qa).
    { unfold qa. change 0 with (inject_Z 0). rewrite <- Zle_Qle. lia. }
    assert (Hqat : qa <= qt).
    { unfold qa, qt. rewrite <- Zle_Qle. lia. }
    assert (Hs : sgn qt = Gt).
    { unfold sgn. apply Qgt_alt. exact Hqt. }
    unfold div. rewrite Hs. cbn [mul number_or].
    assert (H0 : 0 <= qa / qt) by (apply Qle_shift_div_l; lra).
    assert (H1 : qa / qt <= 1) by (apply Qle_shift_div_r; lra).
    destruct (Qeq_bool (qa / qt * 100) 0) eqn:E.
    + exists 0. repeat split; lra.
    + exists (qa / qt * 100). repeat split; try lra.
      intros Ha. unfold qa. rewrite Ha. reflexivity.
Qed.

End AnalyticsFacts.

(** ** Adding an alert setting *)

Module AlertFacts.
Import JS AlertManagement.


(** X29: a setting is posted exactly when its name and threshold are
    filled in and, if it is device specific, a device is chosen.
    Otherwise nothing is asked of the service, the state stays as it
    was, and one error toast is shown. *)
Theorem incomplete_setting_not_sent (backend : Backend) (st : State) :
  let s := newSetting st in
  let outcome := handleAddAlertSetting backend st in
  (snd outcome = [] <->
   NewSetting.setting_name s = "" \/ NewSetting.threshold_value s = ""
   \/ (NewSetting.is_device_specific s = true
       /\ NewSetting.device_name s = ""))
  /\ (snd outcome = [] ->
      fst (fst outcome) = st
      /\ exists text, snd (fst outcome) = [failure text])
  /\ (snd outcome <> [] -> hd_error (snd outcome) = Some (Post (body_of s))).
Proof.
  cbn zeta. unfold handleAddAlertSetting.
  destruct (String.eqb_spec (NewSetting.setting_name (newSetting st)) "")
    as [E1 | E1]; cbn [orb].
  { cbn. split; [tauto|]. split; [eauto | congruence]. }
  destruct (String.eqb_spec (NewSetting.threshold_value (newSetting st)) "")
    as [E2 | E2].
  { cbn. split; [tauto|]. split; [eauto | congruence]. }
  destruct (NewSetting.is_device_specific (newSetting st)) eqn:E3;
    cbn [andb].
  - destruct (String.eqb_spec (NewSetting.device_name (newSetting st)) "")
      as [E4 | E4].
    { cbn. split; [tauto|]. split; [eauto | congruence]. }
    destruct (post backend (body_of (newSetting st))) as [m | [|] [r | m]];
      try destruct (loadAlertSettings backend _) as [st3 toasts];
      cbn; (split; [split; [discriminate | intros [?|[?|[_ ?]]]; congruence]|]);
      (split; [discriminate | reflexivity]).
  - destruct (post backend (body_of (newSetting st))) as [m | [|] [r | m]];
      try destruct (loadAlertSettings backend _) as [st3 toasts];
      cbn; (split; [split; [discriminate | intros [?|[?|[? _]]]; congruence]|]);
      (split; [discriminate | reflexivity]).
Qed.



End AlertFacts.
